(** * Worker-facing API of the AI training and grading workflows

    A shallow embedding of [openassessment/assessment/api/ai_worker.py]:
    the four operations that queue workers call
    ([get_grading_task_params], [create_assessment],
    [get_training_task_params], [create_classifiers]), over an explicit
    model of the rows they read and write, of the exceptions they catch and
    raise, and of the log they write to.  The last part of the file models
    the student-training step that [xblock/test/test_student_training.py]
    exercises. *)

From stdpp Require Import gmap strings list fin_maps.

Open Scope string_scope.

(** ** Python values

    The API receives and returns JSON-like values: the answer of a training
    example is either a string or a dict, the task parameters are dicts. *)

#[warnings="-register-all"]
Inductive pyval : Type :=
  | PNone
  | PBool (b : bool)
  | PInt (z : Z)
  | PStr (s : string)
  | PList (l : list pyval)
  | PDict (d : gmap string pyval).

(** [{k: v for ... in xs}]: entries are written in iteration order, so a
    later entry replaces an earlier one with the same key. *)
Definition dict_comprehension {A V} (key : A → string) (val : A → V)
    (xs : list A) : gmap string V :=
  foldl (λ acc x, <[key x := val x]> acc) ∅ xs.

(** [d.get(k, default)] *)
Definition dict_get (d : gmap string pyval) (k : string) (dflt : pyval) : pyval :=
  default dflt (d !! k).

(** ** Exceptions *)

Inductive exc_class : Type :=
  | AIGradingWorkflow_DoesNotExist
  | AITrainingWorkflow_DoesNotExist
  | DatabaseError
  | ValueError
  | IOError
  | NoTrainingExamples
  | IncompleteClassifierSet
  | ClassifierSerializeError
  | ClassifierUploadError
  | AITrainingRequestError
  | AITrainingInternalError
  | AIGradingRequestError
  | AIGradingInternalError.

#[global] Instance exc_class_eq_dec : EqDecision exc_class.
Proof. solve_decision. Defined.

(** An exception instance: its class and [unicode(ex)]. *)
Record exn : Type := Exn { exn_class : exc_class; exn_str : string }.

Inductive result (A : Type) : Type :=
  | Ok (a : A)
  | Raise (e : exn).
Arguments Ok {A} a.
Arguments Raise {A} e.

(** ** Stored rows

    The models are declared outside the API module; the rows carry the
    attributes that the API reads. *)

Module CriterionOption.
(** Modelled from the spec: an option selected for a training example, a
    "per-criterion integer score"; the API reads [option.criterion.name]
    and [option.points]. *)
Record t : Type := Build { criterion_name : string; points : Z }.
End CriterionOption.

Module TrainingExample.
(** Modelled from the spec: a training example, "essay text + per-criterion
    integer scores"; the API reads [example.answer], a string or a dict,
    and the options of [example.options_selected]. *)
Record t : Type := Build {
  answer : pyval;
  options_selected : list CriterionOption.t
}.
End TrainingExample.

Module AIClassifierSet.
(** Modelled from the spec: AIClassifierSet "maps rubric criterion names to
    serialized classifier blobs; immutable once created". *)
Record t : Type := Build { classifiers : gmap string pyval }.
End AIClassifierSet.

Module AIGradingWorkflow.
(** Modelled from the spec: AIGradingWorkflow "references essay text, an
    algorithm identifier, and an associated classifier set"; "completion
    records per-criterion integer scores and marks itself complete".  The
    uuid is the key of the row. *)
Record t : Type := Build {
  essay_text : string;
  algorithm_id : string;
  classifier_set : option AIClassifierSet.t;
  is_complete : bool;
  criterion_scores : option (gmap string Z)
}.
End AIGradingWorkflow.

Module AITrainingWorkflow.
(** Modelled from the spec: AITrainingWorkflow "holds training examples and
    an algorithm identifier; transitions from incomplete to complete when a
    classifier set is attached".  [rubric_criteria] are the criterion names
    of the rubric the examples were scored with.  The uuid is the key of
    the row. *)
Record t : Type := Build {
  training_examples : list TrainingExample.t;
  algorithm_id : string;
  rubric_criteria : gset string;
  classifier_set : option AIClassifierSet.t;
  is_complete : bool
}.
End AITrainingWorkflow.

(** ** The world the API runs in

    Workflows are rows keyed by their unique [uuid] column.  The database and
    the classifier storage are outside the program: [faults] tells, for each
    kind of access, whether it goes through or which exception it raises
    (a [DatabaseError] from the backend, an [IOError] from the storage...).
    The log collects the records written through [logger]. *)

Inductive io_op : Type :=
  | DbSelect (table : string)
  | DbSave (table : string)
  | StorageRead
  | StorageWrite.

Inductive log_level : Type := WARNING | ERROR.

Record world : Type := World {
  grading_workflows : gmap string AIGradingWorkflow.t;
  training_workflows : gmap string AITrainingWorkflow.t;
  faults : io_op → option exn;
  log : list (log_level * string)
}.

(** ** State and exception monad *)

Definition M (A : Type) : Type := world → result A * world.

#[global] Instance M_ret : MRet M := λ A a s, (Ok a, s).

#[global] Instance M_bind : MBind M := λ A B f m s,
  match m s with
  | (Ok a, s') => f a s'
  | (Raise e, s') => (Raise e, s')
  end.

Definition raise {A} (c : exc_class) (msg : string) : M A :=
  λ s, (Raise (Exn c msg), s).

(** [try: body except (C1, C2, ...) as ex: h1 except ...]: the first clause
    that lists the class of the raised exception handles it; an exception
    raised by a handler is not handled again. *)
Definition handled (e : exn) (clause : list exc_class) : bool :=
  bool_decide (exn_class e ∈ clause).

Definition try_except {A} (body : M A)
    (clauses : list (list exc_class * (exn → M A))) : M A :=
  λ s, match body s with
       | (Ok a, s') => (Ok a, s')
       | (Raise e, s') =>
           match find (λ cl, handled e cl.1) clauses with
           | Some cl => cl.2 e s'
           | None => (Raise e, s')
           end
       end.

(** Reading a component of the world. *)
Definition gets {A} (f : world → A) : M A := λ s, (Ok (f s), s).

(** An access to the database or to the storage. *)
Definition io (op : io_op) : M () :=
  λ s, match faults s op with
       | Some e => (Raise e, s)
       | None => (Ok (), s)
       end.

(** The world after one more log record. *)
Definition logged (s : world) (lvl : log_level) (msg : string) : world :=
  World (grading_workflows s) (training_workflows s) (faults s)
        (log s ++ [(lvl, msg)]).

Definition logger_write (lvl : log_level) (msg : string) : M () :=
  λ s, (Ok (), logged s lvl msg).

(** [logger.exception(msg)] logs at level ERROR. *)
Definition logger_exception (msg : string) : M () := logger_write ERROR msg.
Definition logger_warning (msg : string) : M () := logger_write WARNING msg.

(** ** Model managers and properties read by the API *)

(** [AIGradingWorkflow.objects.get(uuid=...)] *)
Definition AIGradingWorkflow_objects_get (uuid : string) : M AIGradingWorkflow.t :=
  io (DbSelect "AIGradingWorkflow");;
  rows ← gets grading_workflows;
  match rows !! uuid with
  | Some workflow => mret workflow
  | None => raise AIGradingWorkflow_DoesNotExist
              "AIGradingWorkflow matching query does not exist."
  end.

(** [AITrainingWorkflow.objects.get(uuid=...)] *)
Definition AITrainingWorkflow_objects_get (uuid : string) : M AITrainingWorkflow.t :=
  io (DbSelect "AITrainingWorkflow");;
  rows ← gets training_workflows;
  match rows !! uuid with
  | Some workflow => mret workflow
  | None => raise AITrainingWorkflow_DoesNotExist
              "AITrainingWorkflow matching query does not exist."
  end.

(** [workflow.training_examples.all()] *)
Definition training_examples_all (workflow : AITrainingWorkflow.t)
    : M (list TrainingExample.t) :=
  io (DbSelect "TrainingExample");;
  mret (AITrainingWorkflow.training_examples workflow).

(** [example.options_selected.all()] *)
Definition options_selected_all (example : TrainingExample.t)
    : M (list CriterionOption.t) :=
  io (DbSelect "CriterionOption");;
  mret (TrainingExample.options_selected example).

(** Modelled from the spec: the property [classifier_set.classifiers_dict],
    the mapping from criterion names to serialized classifiers.  The API
    guards its read against [ValueError], [IOError] and [DatabaseError]: the
    classifiers are fetched from the database and from the storage they were
    uploaded to. *)
Definition classifiers_dict (classifier_set : AIClassifierSet.t)
    : M (gmap string pyval) :=
  io (DbSelect "AIClassifier");;
  io StorageRead;;
  mret (AIClassifierSet.classifiers classifier_set).

(** ** The API of [ai_worker.py]

    The two [complete] methods belong to the workflow models, which are
    defined outside this module: the API is written over any implementation
    of them.  A method receives the uuid of the row behind [self], the values
    of [self] as they were fetched, and its argument. *)

Section ai_worker.

Variable AIGradingWorkflow_complete :
  string → AIGradingWorkflow.t → gmap string Z → M ().
Variable AITrainingWorkflow_complete :
  string → AITrainingWorkflow.t → gmap string pyval → M ().

Definition get_grading_task_params (grading_workflow_uuid : string) : M pyval :=
  workflow ← try_except
    (AIGradingWorkflow_objects_get grading_workflow_uuid)
    [ ([AIGradingWorkflow_DoesNotExist], λ _,
         let msg := "Could not retrieve the AI grading workflow with uuid "
                    +:+ grading_workflow_uuid in
         raise AIGradingRequestError msg);
      ([DatabaseError], λ ex,
         let msg := "An unexpected error occurred while retrieving the "
                    +:+ "AI grading workflow with uuid "
                    +:+ grading_workflow_uuid +:+ ": " +:+ exn_str ex in
         logger_exception msg;;
         raise AIGradingInternalError msg) ];
  let classifier_set := AIGradingWorkflow.classifier_set workflow in
  (* Tasks shouldn't be scheduled until a classifier set is
     available, so this is a serious internal error. *)
  match classifier_set with
  | None =>
      let msg := "AI grading workflow with UUID "
                 +:+ grading_workflow_uuid +:+ " has no classifier set" in
      logger_exception msg;;
      raise AIGradingInternalError msg
  | Some classifier_set =>
      try_except
        (classifiers ← classifiers_dict classifier_set;
         mret (PDict (<["essay_text" :=
                          PStr (AIGradingWorkflow.essay_text workflow)]>
                      (<["classifier_set" := PDict classifiers]>
                      (<["algorithm_id" :=
                          PStr (AIGradingWorkflow.algorithm_id workflow)]>
                       ∅)))))
        [ ([ValueError; IOError; DatabaseError], λ ex,
             let msg := "An unexpected error occurred while retrieving "
                        +:+ "classifiers for the grading workflow with UUID "
                        +:+ grading_workflow_uuid +:+ ": " +:+ exn_str ex in
             logger_exception msg;;
             raise AIGradingInternalError msg) ]
  end.

Definition create_assessment (grading_workflow_uuid : string)
    (criterion_scores : gmap string Z) : M pyval :=
  workflow ← try_except
    (AIGradingWorkflow_objects_get grading_workflow_uuid)
    [ ([AIGradingWorkflow_DoesNotExist], λ _,
         let msg := "Could not retrieve the AI grading workflow with uuid "
                    +:+ grading_workflow_uuid in
         raise AIGradingRequestError msg);
      ([DatabaseError], λ ex,
         let msg := "An unexpected error occurred while retrieving the "
                    +:+ "AI grading workflow with uuid "
                    +:+ grading_workflow_uuid +:+ ": " +:+ exn_str ex in
         logger_exception msg;;
         raise AIGradingInternalError msg) ];
  (* Optimization: if the workflow has already been marked complete
     (perhaps the task was picked up by multiple workers),
     then we don't need to do anything.
     Otherwise, create the assessment mark the workflow complete. *)
  try_except
    (if negb (AIGradingWorkflow.is_complete workflow)
     then AIGradingWorkflow_complete grading_workflow_uuid workflow
            criterion_scores
     else mret ())
    [ ([DatabaseError], λ ex,
         let msg := "An unexpected error occurred while creating the assessment "
                    +:+ "for AI grading workflow with uuid "
                    +:+ grading_workflow_uuid +:+ ": " +:+ exn_str ex in
         logger_exception msg;;
         raise AIGradingInternalError msg) ];;
  mret PNone.

(** The body of the [for example in ...] loop of
    [get_training_task_params]: the dict appended to [returned_examples]. *)
Definition returned_example (example : TrainingExample.t) : M pyval :=
  let answer := TrainingExample.answer example in
  let text := match answer with
              | PDict d => dict_get d "answer" (PStr "")
              | _ => answer
              end in
  options ← options_selected_all example;
  let scores := dict_comprehension CriterionOption.criterion_name
                  (λ option, PInt (CriterionOption.points option)) options in
  mret (PDict (<["text" := text]> (<["scores" := PDict scores]> ∅))).

Definition get_training_task_params (training_workflow_uuid : string) : M pyval :=
  try_except
    (workflow ← AITrainingWorkflow_objects_get training_workflow_uuid;
     examples ← training_examples_all workflow;
     returned_examples ← mapM returned_example examples;
     mret (PDict (<["training_examples" := PList returned_examples]>
                  (<["algorithm_id" :=
                      PStr (AITrainingWorkflow.algorithm_id workflow)]> ∅))))
    [ ([AITrainingWorkflow_DoesNotExist], λ _,
         let msg := "Could not retrieve AI training workflow with UUID "
                    +:+ training_workflow_uuid in
         raise AITrainingRequestError msg);
      ([DatabaseError], λ _,
         let msg := "An unexpected error occurred while retrieving "
                    +:+ "training examples for the AI training workflow with UUID "
                    +:+ training_workflow_uuid in
         logger_exception msg;;
         raise AITrainingInternalError msg) ].

Definition create_classifiers (training_workflow_uuid : string)
    (classifier_set : gmap string pyval) : M pyval :=
  try_except
    (workflow ← AITrainingWorkflow_objects_get training_workflow_uuid;
     (* If the task is executed multiple times, the classifier set may
        already have been created.  If so, log a warning then return
        immediately. *)
     if AITrainingWorkflow.is_complete workflow
     then
       let msg := "AI training workflow with UUID {} already has trained classifiers." in
       logger_warning msg
     else
       AITrainingWorkflow_complete training_workflow_uuid workflow
         classifier_set)
    [ ([AITrainingWorkflow_DoesNotExist], λ _,
         let msg := "Could not retrieve AI training workflow with UUID "
                    +:+ training_workflow_uuid in
         raise AITrainingRequestError msg);
      ([NoTrainingExamples], λ ex,
         logger_exception (exn_str ex);;
         raise AITrainingInternalError (exn_str ex));
      ([IncompleteClassifierSet], λ ex,
         let msg := "An error occurred while creating the classifier set "
                    +:+ "for the training workflow with UUID "
                    +:+ training_workflow_uuid +:+ ": " +:+ exn_str ex in
         raise AITrainingRequestError msg);
      ([ClassifierSerializeError; ClassifierUploadError; DatabaseError], λ ex,
         let msg := "An unexpected error occurred while creating the classifier "
                    +:+ "set for training workflow UUID "
                    +:+ training_workflow_uuid +:+ ": " +:+ exn_str ex in
         logger_exception msg;;
         raise AITrainingInternalError msg);
      ([DatabaseError], λ _,
         let msg := "An unexpected error occurred while creating the classifier set "
                    +:+ "for the AI training workflow with UUID "
                    +:+ training_workflow_uuid in
         logger_exception msg;;
         raise AITrainingInternalError msg) ];;
  mret PNone.

End ai_worker.

(** ** The [complete] methods of the workflow models *)

Definition set_grading_workflow (uuid : string) (row : AIGradingWorkflow.t) : M () :=
  λ s, (Ok (), World (<[uuid := row]> (grading_workflows s))
                     (training_workflows s) (faults s) (log s)).

Definition set_training_workflow (uuid : string) (row : AITrainingWorkflow.t) : M () :=
  λ s, (Ok (), World (grading_workflows s)
                     (<[uuid := row]> (training_workflows s)) (faults s) (log s)).

(** Modelled from the spec: [AIGradingWorkflow.complete], which is defined
    with the models and not in the API module.  "Completion records
    per-criterion integer scores and marks itself complete": the scores are
    stored with the row and the row is saved as complete. *)
Definition AIGradingWorkflow_complete (uuid : string)
    (self : AIGradingWorkflow.t) (criterion_scores : gmap string Z) : M () :=
  io (DbSave "AIGradingWorkflow");;
  set_grading_workflow uuid
    (AIGradingWorkflow.Build
       (AIGradingWorkflow.essay_text self)
       (AIGradingWorkflow.algorithm_id self)
       (AIGradingWorkflow.classifier_set self)
       true
       (Some criterion_scores)).

(** Modelled from the spec: [AITrainingWorkflow.complete], which is defined
    with the models and not in the API module.  The workflow "transitions
    from incomplete to complete when a classifier set is attached"; it
    "cannot be marked complete without at least one training example"
    (the [NoTrainingExamples] condition); and a classifier set "maps rubric
    criterion names to serialized classifier blobs", so a mapping whose keys
    are not the criteria of the rubric is refused (the
    [IncompleteClassifierSet] condition).  The classifiers are uploaded to
    the storage before the row is saved. *)
Definition AITrainingWorkflow_complete (uuid : string)
    (self : AITrainingWorkflow.t) (classifier_set : gmap string pyval) : M () :=
  examples ← training_examples_all self;
  match examples with
  | [] =>
      raise NoTrainingExamples
        ("No training examples were provided for the training workflow with UUID "
         +:+ uuid)
  | _ :: _ =>
      if bool_decide (dom classifier_set = AITrainingWorkflow.rubric_criteria self)
      then
        io StorageWrite;;
        io (DbSave "AIClassifierSet");;
        io (DbSave "AITrainingWorkflow");;
        set_training_workflow uuid
          (AITrainingWorkflow.Build
             (AITrainingWorkflow.training_examples self)
             (AITrainingWorkflow.algorithm_id self)
             (AITrainingWorkflow.rubric_criteria self)
             (Some (AIClassifierSet.Build classifier_set))
             true)
      else
        raise IncompleteClassifierSet
          "Missing or unexpected classifiers for the criteria of the rubric"
  end.

(** ** The student-training step

    The handler and the workflow model of the student-training step are not
    part of the sources at hand; [test_student_training.py] exercises them. *)

Module StudentTraining.

(** Modelled from the spec: a training example shown to the learner, the
    essay and the instructor-defined "correct" option of each criterion. *)
Record example : Type := Example {
  essay : string;
  correct_options : gmap string string
}.

(** Modelled from the spec: the problem as the course author defined it,
    the options of each rubric criterion and the training examples. *)
Record problem : Type := Problem {
  rubric : gmap string (gset string);
  examples : list example
}.

(** Modelled from the spec: StudentTrainingWorkflow, the "per-learner,
    per-problem state tracking how many training examples have been
    completed", together with whether the learner has a submission. *)
Record workflow : Type := Workflow {
  has_submission : bool;
  num_completed : nat
}.

(** The [options_selected] entry of the JSON request. *)
Inductive options_field : Type :=
  | OptionsMissing
  | OptionsNotADict (v : pyval)
  | OptionsDict (d : gmap string string).

Record response : Type := Response {
  success : bool;
  msg : string;
  correct : option bool
}.

(** What [training_path_and_context] renders. *)
Inductive view : Type :=
  | ViewNotAvailable
  | ViewExample (training_num_completed : nat) (training_essay : string)
  | ViewComplete.

(** Every selected criterion is a criterion of the rubric and the selected
    option is one of its options. *)
Definition valid_option (r : gmap string (gset string))
    (criterion option : string) : bool :=
  match r !! criterion with
  | Some options => bool_decide (option ∈ options)
  | None => false
  end.

Definition valid_selection (r : gmap string (gset string))
    (sel : gmap string string) : bool :=
  bool_decide (map_Forall (λ c o, valid_option r c o) sel).

Definition current_example (p : problem) (w : workflow) : option example :=
  examples p !! num_completed w.

(** Modelled from the spec: the [training_assess] handler.  The workflow
    "advances only when the learner's selected rubric options exactly match
    the instructor-defined correct answer for the current example"; the
    tests show the failure responses for a request without a dict of
    options, for a criterion that the rubric does not have, and for a
    learner without a submission. *)
Definition training_assess (p : problem) (data : options_field)
    (w : workflow) : response * workflow :=
  match data with
  | OptionsMissing =>
      (Response false "Missing options_selected key in request" None, w)
  | OptionsNotADict _ =>
      (Response false "options_selected must be a dictionary" None, w)
  | OptionsDict selected =>
      if negb (has_submission w)
      then (Response false "Your scores could not be checked." None, w)
      else
        match current_example p w with
        | None =>
            (Response false "No training example is available." None, w)
        | Some ex =>
            if negb (valid_selection (rubric p) selected)
            then (Response false "Your scores could not be checked." None, w)
            else if bool_decide (selected = correct_options ex)
            then (Response true "" (Some true),
                  Workflow (has_submission w) (S (num_completed w)))
            else (Response true "" (Some false), w)
        end
  end.

(** Modelled from the spec: [training_path_and_context], the view of the
    step: the current example, or the training-complete view once every
    example has been completed. *)
Definition training_path_and_context (p : problem) (w : workflow) : view :=
  if negb (has_submission w) then ViewNotAvailable
  else match current_example p w with
       | Some ex => ViewExample (num_completed w) (essay ex)
       | None => ViewComplete
       end.

End StudentTraining.

(** ** The training parameters, as the interface describes them

    The three shapes of the [text] of a returned example, and the two readings
    of "the [scores] of the selected options" that are compared below. *)

(** [text] is the answer itself when the answer is not a dict, the entry
    [answer] of a dict that has one, and the empty string otherwise. *)
Definition text_of_answer (answer text : pyval) : Prop :=
  match answer with
  | PDict d =>
      match d !! "answer" with
      | Some v => text = v
      | None => text = PStr ""
      end
  | _ => text = answer
  end.

(** [scores] maps the criterion name of every selected option to the points
    of that option. *)
Definition scores_of_every_option (options : list CriterionOption.t)
    (scores : gmap string pyval) : Prop :=
  ∀ option, option ∈ options →
    scores !! CriterionOption.criterion_name option
      = Some (PInt (CriterionOption.points option)).

(** [scores] has the criterion names of the selected options as keys, and
    maps the criterion name of every selected option that no later selected
    option of the same criterion follows to the points of that option. *)
Definition scores_of_last_options (options : list CriterionOption.t)
    (scores : gmap string pyval) : Prop :=
  dom scores = list_to_set (CriterionOption.criterion_name <$> options) ∧
  ∀ i option, options !! i = Some option →
    (∀ j later, i < j → options !! j = Some later →
       CriterionOption.criterion_name later
         ≠ CriterionOption.criterion_name option) →
    scores !! CriterionOption.criterion_name option
      = Some (PInt (CriterionOption.points option)).

(** [returned] is the dict of a stored training example: its [text] and its
    [scores]. *)
Definition describes_example (example : TrainingExample.t)
    (returned : pyval) : Prop :=
  ∃ text scores,
    returned = PDict (<["text" := text]> (<["scores" := PDict scores]> ∅)) ∧
    text_of_answer (TrainingExample.answer example) text ∧
    scores_of_last_options (TrainingExample.options_selected example) scores.

(** A training example carries one score per criterion: no two of its
    selected options belong to the same criterion. *)
Definition one_option_per_criterion (example : TrainingExample.t) : Prop :=
  NoDup (CriterionOption.criterion_name
           <$> TrainingExample.options_selected example).

(** [returned] is the dict of a stored training example: its [text], and its
    [scores], whose keys are the criterion names of the selected options and
    which map the criterion name of every selected option to the points of
    that option. *)
Definition returns_example (example : TrainingExample.t)
    (returned : pyval) : Prop :=
  ∃ text scores,
    returned = PDict (<["text" := text]> (<["scores" := PDict scores]> ∅)) ∧
    text_of_answer (TrainingExample.answer example) text ∧
    dom scores
      = list_to_set (CriterionOption.criterion_name
                       <$> TrainingExample.options_selected example) ∧
    scores_of_every_option (TrainingExample.options_selected example) scores.

(** ** Sample data

    The rubric and the examples of the docstring of
    [get_training_task_params], and the scenario of the student-training
    tests. *)

Definition no_faults : io_op → option exn := λ _, None.

Definition sample_classifiers : gmap string pyval :=
  <["vocabulary" := PStr "classifier for vocabulary"]>
  (<["grammar" := PStr "classifier for grammar"]> ∅).

Definition sample_examples : list TrainingExample.t :=
  [ TrainingExample.Build (PStr "Example answer number one")
      [ CriterionOption.Build "vocabulary" 1; CriterionOption.Build "grammar" 2 ];
    TrainingExample.Build
      (PDict (<["answer" := PStr "Example answer number two"]> ∅))
      [ CriterionOption.Build "vocabulary" 3; CriterionOption.Build "grammar" 1 ];
    TrainingExample.Build (PDict (<["parts" := PList []]> ∅)) [] ].

(** A row outside the data model: two options of the same criterion are
    selected. *)
Definition shadowed_example : TrainingExample.t :=
  TrainingExample.Build (PStr "Example answer")
    [ CriterionOption.Build "vocabulary" 1; CriterionOption.Build "vocabulary" 3 ].

Definition sample_grading : gmap string AIGradingWorkflow.t :=
  <["grading-complete" :=
      AIGradingWorkflow.Build "An essay" "ease"
        (Some (AIClassifierSet.Build sample_classifiers)) true
        (Some (<["vocabulary" := 1%Z]> (<["grammar" := 2%Z]> ∅)))]>
  (<["grading-ready" :=
      AIGradingWorkflow.Build "An essay" "ease"
        (Some (AIClassifierSet.Build sample_classifiers)) false None]>
  (<["grading-waiting" :=
      AIGradingWorkflow.Build "An essay" "ease" None false None]> ∅)).

Definition sample_training : gmap string AITrainingWorkflow.t :=
  <["training-complete" :=
      AITrainingWorkflow.Build sample_examples "ease" {["vocabulary"; "grammar"]}
        (Some (AIClassifierSet.Build sample_classifiers)) true]>
  (<["training-ready" :=
      AITrainingWorkflow.Build sample_examples "ease" {["vocabulary"; "grammar"]}
        None false]>
  (<["training-empty" :=
      AITrainingWorkflow.Build [] "ease" {["vocabulary"; "grammar"]} None false]>
  (<["training-shadowed" :=
      AITrainingWorkflow.Build [shadowed_example] "ease" {["vocabulary"]}
        None false]> ∅))).

Definition sample_world : world :=
  World sample_grading sample_training no_faults [].

Definition first_example : StudentTraining.example :=
  StudentTraining.Example "First training essay"
    (<["Vocabulary" := "Good"]> (<["Grammar" := "Excellent"]> ∅)).

Definition second_example : StudentTraining.example :=
  StudentTraining.Example "Second training essay"
    (<["Vocabulary" := "Excellent"]> (<["Grammar" := "Poor"]> ∅)).

Definition sample_problem : StudentTraining.problem :=
  StudentTraining.Problem
    (<["Vocabulary" := {["Poor"; "Good"; "Excellent"]}]>
     (<["Grammar" := {["Poor"; "Good"; "Excellent"]}]> ∅))
    [ first_example; second_example ].

Definition sample_learner : StudentTraining.workflow :=
  StudentTraining.Workflow true 0.

(** ** What a call may do to the world *)

(** The call left the world as it was, or it wrote exactly one ERROR record
    and raised the exception of class [cls] that carries the same text. *)
Definition logs_only_its_error {A} (cls : exc_class) (s : world)
    (out : result A * world) : Prop :=
  out.2 = s ∨ ∃ msg, out = (Raise (Exn cls msg), logged s ERROR msg).

(** The three outcomes that the docstrings of the API announce: a value, the
    request error, or the internal error, which is the only one logged. *)
Definition documented_outcome {A} (request internal : exc_class) (s : world)
    (out : result A * world) : Prop :=
  (∃ v, out = (Ok v, s)) ∨
  (∃ msg, out = (Raise (Exn request msg), s)) ∨
  (∃ msg, out = (Raise (Exn internal msg), logged s ERROR msg)).

(** A query that fails raises [DatabaseError]. *)
Definition queries_raise_DatabaseError (s : world) : Prop :=
  ∀ table e, faults s (DbSelect table) = Some e → exn_class e = DatabaseError.

(** ** The helper of the student-training tests *)

Inductive test_error : Type :=
  | AssertionError
  | KeyError (key : string).

Section assert_path_and_context.

Context {V : Type} `{EqDecision V}.

(** [[self.assertEqual(context[key], expected_context[key]) for key in
    expected_context.keys()]], over the entries of [expected_context]: a key
    that [context] lacks raises [KeyError], a different value fails the
    assertion. *)
Fixpoint assert_entries (context : gmap string V)
    (expected : list (string * V)) : option test_error :=
  match expected with
  | [] => None
  | (key, value) :: rest =>
      match context !! key with
      | None => Some (KeyError key)
      | Some found =>
          if bool_decide (found = value) then assert_entries context rest
          else Some AssertionError
      end
  end.

(** [_assert_path_and_context].  [path] and [context] are what
    [xblock.training_path_and_context()] returned and [resp] is the response
    to the request [render_student_training]; the result is the first error
    raised, if any. *)
Definition _assert_path_and_context (path : string) (context : gmap string V)
    (resp : string) (expected_path : string)
    (expected_context : gmap string V) : option test_error :=
  if negb (bool_decide (path = expected_path)) then Some AssertionError
  else if negb (bool_decide (size context = size expected_context))
  then Some AssertionError
  else
    match assert_entries context (map_to_list expected_context) with
    | Some err => Some err
    | None =>
        (* Verify that we render without error *)
        if bool_decide (0 < String.length resp) then None
        else Some AssertionError
    end.

End assert_path_and_context.

(** ** Sample failures *)

Definition database_down : io_op → option exn :=
  λ op, match op with
        | DbSelect _ | DbSave _ => Some (Exn DatabaseError "connection refused")
        | StorageRead | StorageWrite => None
        end.

Definition storage_down : io_op → option exn :=
  λ op, match op with
        | StorageRead | StorageWrite => Some (Exn IOError "storage unavailable")
        | DbSelect _ | DbSave _ => None
        end.

(** The options of the examples cannot be read. *)
Definition options_down : io_op → option exn :=
  λ op, match op with
        | DbSelect "CriterionOption" =>
            Some (Exn DatabaseError "connection refused")
        | _ => None
        end.

Definition offline_world : world :=
  World sample_grading sample_training database_down [].

Definition unreadable_world : world :=
  World sample_grading sample_training storage_down [].

Definition options_offline_world : world :=
  World sample_grading sample_training options_down [].

Definition sample_scores : gmap string Z :=
  <["vocabulary" := 1%Z]> (<["grammar" := 2%Z]> ∅).

Definition ready_grading_workflow : AIGradingWorkflow.t :=
  AIGradingWorkflow.Build "An essay" "ease"
    (Some (AIClassifierSet.Build sample_classifiers)) false None.

Definition graded_workflow : AIGradingWorkflow.t :=
  AIGradingWorkflow.Build "An essay" "ease"
    (Some (AIClassifierSet.Build sample_classifiers)) true (Some sample_scores).

(** [sample_world] after the completion of the workflow [grading-ready]. *)
Definition graded_world : world :=
  World (<["grading-ready" := graded_workflow]> sample_grading)
        sample_training no_faults [].

Definition ready_training_workflow : AITrainingWorkflow.t :=
  AITrainingWorkflow.Build sample_examples "ease" {["vocabulary"; "grammar"]}
    None false.

Definition trained_workflow : AITrainingWorkflow.t :=
  AITrainingWorkflow.Build sample_examples "ease" {["vocabulary"; "grammar"]}
    (Some (AIClassifierSet.Build sample_classifiers)) true.

(** [sample_world] after the completion of the workflow [training-ready]. *)
Definition trained_world : world :=
  World sample_grading
        (<["training-ready" := trained_workflow]> sample_training)
        no_faults [].

(** A rendered context with an entry that is not expected, and the expected
    context; the values stand for the rendered values. *)
Definition rendered_context : gmap string nat :=
  <["training_num_completed" := 0]> (<["training_due" := 7]> ∅).

Definition expected_context : gmap string nat :=
  <["training_num_completed" := 0]> (<["training_essay" := 1]> ∅).

(** A [complete] that fails with the given exception and writes nothing. *)
Definition failing_complete {W C : Type} (e : exn) : string → W → C → M () :=
  λ _ _ _ s, (Raise e, s).

(** * Properties *)

(** ** Running the monad *)

Lemma run_bind {A B} (m : M A) (f : A → M B) (s : world) :
  (m ≫= f) s = match m s with
               | (Ok a, s') => f a s'
               | (Raise e, s') => (Raise e, s')
               end.
Proof. reflexivity. Qed.

Lemma run_bind_ok {A B} (m : M A) (f : A → M B) (s s' : world) (a : A) :
  m s = (Ok a, s') → (m ≫= f) s = f a s'.
Proof. intros Hm. rewrite run_bind, Hm. reflexivity. Qed.

Lemma run_bind_raise {A B} (m : M A) (f : A → M B) (s s' : world) (e : exn) :
  m s = (Raise e, s') → (m ≫= f) s = (Raise e, s').
Proof. intros Hm. rewrite run_bind, Hm. reflexivity. Qed.

Lemma try_except_ok {A} (body : M A) clauses (s s' : world) (a : A) :
  body s = (Ok a, s') → try_except body clauses s = (Ok a, s').
Proof. intros Hb. unfold try_except. rewrite Hb. reflexivity. Qed.

Lemma try_except_raise {A} (body : M A) clauses (s s' : world) (e : exn) :
  body s = (Raise e, s') →
  try_except body clauses s =
    match find (λ cl, handled e cl.1) clauses with
    | Some cl => cl.2 e s'
    | None => (Raise e, s')
    end.
Proof. intros Hb. unfold try_except. rewrite Hb. reflexivity. Qed.

Lemma io_ok (op : io_op) (s : world) :
  faults s op = None → io op s = (Ok (), s).
Proof. intros Hf. unfold io. rewrite Hf. reflexivity. Qed.

(** ** Lookups *)

Lemma AIGradingWorkflow_objects_get_found s uuid workflow :
  faults s (DbSelect "AIGradingWorkflow") = None →
  grading_workflows s !! uuid = Some workflow →
  AIGradingWorkflow_objects_get uuid s = (Ok workflow, s).
Proof.
  intros Hdb Hrow. unfold AIGradingWorkflow_objects_get.
  rewrite (run_bind_ok _ _ _ _ _ (io_ok _ _ Hdb)).
  rewrite run_bind. cbn. rewrite Hrow. reflexivity.
Qed.

Lemma AIGradingWorkflow_objects_get_missing s uuid :
  faults s (DbSelect "AIGradingWorkflow") = None →
  grading_workflows s !! uuid = None →
  AIGradingWorkflow_objects_get uuid s =
    (Raise (Exn AIGradingWorkflow_DoesNotExist
              "AIGradingWorkflow matching query does not exist."), s).
Proof.
  intros Hdb Hrow. unfold AIGradingWorkflow_objects_get.
  rewrite (run_bind_ok _ _ _ _ _ (io_ok _ _ Hdb)).
  rewrite run_bind. cbn. rewrite Hrow. reflexivity.
Qed.

Lemma AITrainingWorkflow_objects_get_found s uuid workflow :
  faults s (DbSelect "AITrainingWorkflow") = None →
  training_workflows s !! uuid = Some workflow →
  AITrainingWorkflow_objects_get uuid s = (Ok workflow, s).
Proof.
  intros Hdb Hrow. unfold AITrainingWorkflow_objects_get.
  rewrite (run_bind_ok _ _ _ _ _ (io_ok _ _ Hdb)).
  rewrite run_bind. cbn. rewrite Hrow. reflexivity.
Qed.

Lemma AITrainingWorkflow_objects_get_missing s uuid :
  faults s (DbSelect "AITrainingWorkflow") = None →
  training_workflows s !! uuid = None →
  AITrainingWorkflow_objects_get uuid s =
    (Raise (Exn AITrainingWorkflow_DoesNotExist
              "AITrainingWorkflow matching query does not exist."), s).
Proof.
  intros Hdb Hrow. unfold AITrainingWorkflow_objects_get.
  rewrite (run_bind_ok _ _ _ _ _ (io_ok _ _ Hdb)).
  rewrite run_bind. cbn. rewrite Hrow. reflexivity.
Qed.

Lemma AITrainingWorkflow_objects_get_inv s s' uuid workflow :
  AITrainingWorkflow_objects_get uuid s = (Ok workflow, s') →
  faults s (DbSelect "AITrainingWorkflow") = None ∧
  training_workflows s !! uuid = Some workflow.
Proof.
  unfold AITrainingWorkflow_objects_get. rewrite run_bind. unfold io.
  destruct (faults s (DbSelect "AITrainingWorkflow")) as [ e | ];
    [ intros Hget; discriminate Hget | ].
  rewrite run_bind. cbn.
  destruct (training_workflows s !! uuid) as [ row | ]; cbn;
    intros Hget; [ | discriminate Hget ].
  injection Hget as -> _. by split.
Qed.

(** Writing to the log does not change what a lookup finds. *)
Lemma AITrainingWorkflow_objects_get_logged s uuid workflow lvl msg :
  AITrainingWorkflow_objects_get uuid s = (Ok workflow, s) →
  AITrainingWorkflow_objects_get uuid (logged s lvl msg)
    = (Ok workflow, logged s lvl msg).
Proof.
  intros Hget.
  apply AITrainingWorkflow_objects_get_inv in Hget as [Hdb Hrow].
  by apply AITrainingWorkflow_objects_get_found.
Qed.

Lemma classifiers_dict_ok s classifier_set :
  faults s (DbSelect "AIClassifier") = None →
  faults s StorageRead = None →
  classifiers_dict classifier_set s =
    (Ok (AIClassifierSet.classifiers classifier_set), s).
Proof.
  intros Hdb Hst. unfold classifiers_dict.
  rewrite (run_bind_ok _ _ _ _ _ (io_ok _ _ Hdb)).
  rewrite (run_bind_ok _ _ _ _ _ (io_ok _ _ Hst)).
  reflexivity.
Qed.

(** ** Grading *)

(** C3: a grading workflow that is stored without a classifier set makes
    [get_grading_task_params] log the condition and raise
    [AIGradingInternalError], the internal-error variant and not
    [AIGradingRequestError]; nothing is returned and no row changes. *)
Theorem get_grading_task_params_no_classifier_set s uuid workflow :
  AIGradingWorkflow_objects_get uuid s = (Ok workflow, s) →
  AIGradingWorkflow.classifier_set workflow = None →
  let msg := "AI grading workflow with UUID " +:+ uuid
             +:+ " has no classifier set" in
  get_grading_task_params uuid s
    = (Raise (Exn AIGradingInternalError msg), logged s ERROR msg).
Proof.
  intros Hget Hcs msg. unfold get_grading_task_params.
  rewrite (run_bind_ok _ _ s s workflow) by (by apply try_except_ok).
  rewrite Hcs. reflexivity.
Qed.

Lemma get_grading_task_params_no_classifier_set_witness :
  get_grading_task_params "grading-waiting" sample_world
    = (Raise (Exn AIGradingInternalError
         "AI grading workflow with UUID grading-waiting has no classifier set"),
       logged sample_world ERROR
         "AI grading workflow with UUID grading-waiting has no classifier set").
Proof.
  apply (get_grading_task_params_no_classifier_set sample_world
           "grading-waiting"
           (AIGradingWorkflow.Build "An essay" "ease" None false None));
    reflexivity.
Defined.

(** C5: for a grading workflow that exists and has a classifier set, whose
    mapping [classifiers_dict] reads, [get_grading_task_params] returns a
    dict with exactly the keys [essay_text], [classifier_set] and
    [algorithm_id], holding the essay text of the workflow, the mapping of
    the classifier set and the algorithm id of the workflow; the world is
    left as it was. *)
Theorem get_grading_task_params_returns s uuid workflow classifier_set :
  AIGradingWorkflow_objects_get uuid s = (Ok workflow, s) →
  AIGradingWorkflow.classifier_set workflow = Some classifier_set →
  classifiers_dict classifier_set s
    = (Ok (AIClassifierSet.classifiers classifier_set), s) →
  ∃ params : gmap string pyval,
    get_grading_task_params uuid s = (Ok (PDict params), s) ∧
    dom params = {["essay_text"; "classifier_set"; "algorithm_id"]} ∧
    params !! "essay_text"
      = Some (PStr (AIGradingWorkflow.essay_text workflow)) ∧
    params !! "classifier_set"
      = Some (PDict (AIClassifierSet.classifiers classifier_set)) ∧
    params !! "algorithm_id"
      = Some (PStr (AIGradingWorkflow.algorithm_id workflow)).
Proof.
  intros Hget Hcs Hread. eexists. split.
  - unfold get_grading_task_params.
    rewrite (run_bind_ok _ _ s s workflow) by (by apply try_except_ok).
    rewrite Hcs. apply try_except_ok.
    rewrite (run_bind_ok _ _ _ _ _ Hread). reflexivity.
  - split; [ rewrite !dom_insert_L, dom_empty_L; set_solver | ].
    repeat split; by simplify_map_eq.
Qed.

Lemma get_grading_task_params_returns_witness :
  ∃ params : gmap string pyval,
    get_grading_task_params "grading-ready" sample_world
      = (Ok (PDict params), sample_world) ∧
    dom params = {["essay_text"; "classifier_set"; "algorithm_id"]} ∧
    params !! "essay_text" = Some (PStr "An essay") ∧
    params !! "classifier_set" = Some (PDict sample_classifiers) ∧
    params !! "algorithm_id" = Some (PStr "ease").
Proof.
  apply (get_grading_task_params_returns sample_world "grading-ready"
           (AIGradingWorkflow.Build "An essay" "ease"
              (Some (AIClassifierSet.Build sample_classifiers)) false None)
           (AIClassifierSet.Build sample_classifiers));
    reflexivity.
Defined.

(** [create_assessment] skips the completion of a complete workflow. *)
Lemma create_assessment_skips_complete
    (complete : string → AIGradingWorkflow.t → gmap string Z → M ())
    s uuid workflow criterion_scores :
  AIGradingWorkflow_objects_get uuid s = (Ok workflow, s) →
  AIGradingWorkflow.is_complete workflow = true →
  create_assessment complete uuid criterion_scores s = (Ok PNone, s).
Proof.
  intros Hget Hdone. unfold create_assessment.
  rewrite (run_bind_ok _ _ s s workflow) by (by apply try_except_ok).
  rewrite Hdone. reflexivity.
Qed.

(** C1: duplicate delivery of a grading task.  For a grading workflow that
    exists and is already complete, [create_assessment] returns [None] and leaves
    the world as it was, whatever [complete] would do and whatever the
    scores are: the row, its scores and its completion mark are those of the
    first completion.  Hence running the operation twice is running it
    once. *)
Theorem create_assessment_already_complete
    (complete : string → AIGradingWorkflow.t → gmap string Z → M ())
    s uuid workflow criterion_scores :
  AIGradingWorkflow_objects_get uuid s = (Ok workflow, s) →
  AIGradingWorkflow.is_complete workflow = true →
  create_assessment complete uuid criterion_scores s = (Ok PNone, s) ∧
  (create_assessment complete uuid criterion_scores;;
   create_assessment complete uuid criterion_scores) s
    = create_assessment complete uuid criterion_scores s.
Proof.
  intros Hget Hdone.
  pose proof (create_assessment_skips_complete complete s uuid workflow
                criterion_scores Hget Hdone) as Hrun.
  split; [ exact Hrun | ].
  rewrite (run_bind_ok _ _ _ _ _ Hrun). reflexivity.
Qed.

Lemma create_assessment_already_complete_witness :
  create_assessment AIGradingWorkflow_complete "grading-complete"
      (<["vocabulary" := 3%Z]> ∅) sample_world
    = (Ok PNone, sample_world) ∧
  (create_assessment AIGradingWorkflow_complete "grading-complete"
      (<["vocabulary" := 3%Z]> ∅);;
   create_assessment AIGradingWorkflow_complete "grading-complete"
      (<["vocabulary" := 3%Z]> ∅)) sample_world
    = create_assessment AIGradingWorkflow_complete "grading-complete"
        (<["vocabulary" := 3%Z]> ∅) sample_world.
Proof.
  apply (create_assessment_already_complete AIGradingWorkflow_complete
           sample_world "grading-complete"
           (AIGradingWorkflow.Build "An essay" "ease"
              (Some (AIClassifierSet.Build sample_classifiers)) true
              (Some (<["vocabulary" := 1%Z]> (<["grammar" := 2%Z]> ∅)))));
    reflexivity.
Defined.

(** The first delivery of a grading task completes the workflow with the
    scores it carries; after it, a second delivery, even with other scores,
    finds the workflow complete and changes nothing: the workflow is marked
    complete once. *)
Lemma create_assessment_completes_once s uuid workflow scores scores' :
  faults s (DbSelect "AIGradingWorkflow") = None →
  faults s (DbSave "AIGradingWorkflow") = None →
  grading_workflows s !! uuid = Some workflow →
  AIGradingWorkflow.is_complete workflow = false →
  ∃ s1,
    create_assessment AIGradingWorkflow_complete uuid scores s = (Ok PNone, s1) ∧
    (∃ completed,
       grading_workflows s1 !! uuid = Some completed ∧
       AIGradingWorkflow.is_complete completed = true ∧
       AIGradingWorkflow.criterion_scores completed = Some scores) ∧
    create_assessment AIGradingWorkflow_complete uuid scores' s1 = (Ok PNone, s1).
Proof.
  intros Hdb Hsave Hrow Hopen.
  eexists. split; [ | split ].
  - unfold create_assessment.
    rewrite (run_bind_ok _ _ s s workflow).
    + rewrite Hopen. cbn [negb].
      erewrite run_bind_ok; [ reflexivity | ].
      apply try_except_ok. unfold AIGradingWorkflow_complete.
      rewrite (run_bind_ok _ _ _ _ _ (io_ok _ _ Hsave)). reflexivity.
    + apply try_except_ok. by apply AIGradingWorkflow_objects_get_found.
  - eexists. cbn. rewrite lookup_insert_eq. split; [ reflexivity | ]. done.
  - eapply create_assessment_skips_complete.
    + apply AIGradingWorkflow_objects_get_found; cbn;
        [ exact Hdb | apply lookup_insert_eq ].
    + reflexivity.
Qed.

(** ** Training *)

(** C2: duplicate completion of a training workflow.  For a training
    workflow that exists and whose [is_complete] flag is set,
    [create_classifiers] does not call [complete], whatever it would do and whatever classifiers are
    supplied: it writes one warning to the log and returns [None]; the rows,
    and with them the workflow and its classifier set, are unchanged. *)
Theorem create_classifiers_already_complete
    (complete : string → AITrainingWorkflow.t → gmap string pyval → M ())
    s uuid workflow classifier_set :
  AITrainingWorkflow_objects_get uuid s = (Ok workflow, s) →
  AITrainingWorkflow.is_complete workflow = true →
  create_classifiers complete uuid classifier_set s
    = (Ok PNone,
       logged s WARNING
         "AI training workflow with UUID {} already has trained classifiers.") ∧
  training_workflows
      (create_classifiers complete uuid classifier_set s).2
    = training_workflows s.
Proof.
  intros Hget Hdone.
  assert (create_classifiers complete uuid classifier_set s
    = (Ok PNone,
       logged s WARNING
         "AI training workflow with UUID {} already has trained classifiers."))
    as Hrun.
  { unfold create_classifiers.
    erewrite run_bind_ok; [ reflexivity | ].
    apply try_except_ok.
    rewrite (run_bind_ok _ _ s s workflow) by exact Hget.
    rewrite Hdone. reflexivity. }
  split; [ exact Hrun | ]. rewrite Hrun. reflexivity.
Qed.

Lemma create_classifiers_already_complete_witness :
  create_classifiers AITrainingWorkflow_complete "training-complete" ∅
      sample_world
    = (Ok PNone,
       logged sample_world WARNING
         "AI training workflow with UUID {} already has trained classifiers.") ∧
  training_workflows
      (create_classifiers AITrainingWorkflow_complete "training-complete" ∅
         sample_world).2
    = training_workflows sample_world.
Proof.
  apply (create_classifiers_already_complete AITrainingWorkflow_complete
           sample_world "training-complete"
           (AITrainingWorkflow.Build sample_examples "ease"
              {["vocabulary"; "grammar"]}
              (Some (AIClassifierSet.Build sample_classifiers)) true));
    reflexivity.
Defined.

(** ** Unknown workflows *)

(** C8: for a uuid that matches no stored workflow, so that the lookup
    raises [DoesNotExist], each of the four operations raises the request-error variant of its family,
    [AIGradingRequestError] or [AITrainingRequestError], and the world,
    rows and log, is left as it was. *)
Theorem unknown_uuid_raises_request_error
    (grading_complete : string → AIGradingWorkflow.t → gmap string Z → M ())
    (training_complete : string → AITrainingWorkflow.t → gmap string pyval → M ())
    s uuid criterion_scores classifier_set not_found not_found' :
  AIGradingWorkflow_objects_get uuid s
    = (Raise (Exn AIGradingWorkflow_DoesNotExist not_found), s) →
  AITrainingWorkflow_objects_get uuid s
    = (Raise (Exn AITrainingWorkflow_DoesNotExist not_found'), s) →
  get_grading_task_params uuid s
    = (Raise (Exn AIGradingRequestError
         ("Could not retrieve the AI grading workflow with uuid " +:+ uuid)), s) ∧
  create_assessment grading_complete uuid criterion_scores s
    = (Raise (Exn AIGradingRequestError
         ("Could not retrieve the AI grading workflow with uuid " +:+ uuid)), s) ∧
  get_training_task_params uuid s
    = (Raise (Exn AITrainingRequestError
         ("Could not retrieve AI training workflow with UUID " +:+ uuid)), s) ∧
  create_classifiers training_complete uuid classifier_set s
    = (Raise (Exn AITrainingRequestError
         ("Could not retrieve AI training workflow with UUID " +:+ uuid)), s).
Proof.
  intros Hgget Htget.
  repeat split.
  - unfold get_grading_task_params.
    erewrite run_bind_raise; [ reflexivity | ].
    rewrite (try_except_raise _ _ _ _ _ Hgget). reflexivity.
  - unfold create_assessment.
    erewrite run_bind_raise; [ reflexivity | ].
    rewrite (try_except_raise _ _ _ _ _ Hgget). reflexivity.
  - unfold get_training_task_params.
    rewrite (try_except_raise _ _ _ _ _ (run_bind_raise _ _ _ _ _ Htget)).
    reflexivity.
  - unfold create_classifiers.
    erewrite run_bind_raise; [ reflexivity | ].
    rewrite (try_except_raise _ _ _ _ _ (run_bind_raise _ _ _ _ _ Htget)).
    reflexivity.
Qed.

Lemma unknown_uuid_raises_request_error_witness :
  get_grading_task_params "abcd1234" sample_world
    = (Raise (Exn AIGradingRequestError
         "Could not retrieve the AI grading workflow with uuid abcd1234"),
       sample_world) ∧
  create_assessment AIGradingWorkflow_complete "abcd1234" ∅ sample_world
    = (Raise (Exn AIGradingRequestError
         "Could not retrieve the AI grading workflow with uuid abcd1234"),
       sample_world) ∧
  get_training_task_params "abcd1234" sample_world
    = (Raise (Exn AITrainingRequestError
         "Could not retrieve AI training workflow with UUID abcd1234"),
       sample_world) ∧
  create_classifiers AITrainingWorkflow_complete "abcd1234" ∅ sample_world
    = (Raise (Exn AITrainingRequestError
         "Could not retrieve AI training workflow with UUID abcd1234"),
       sample_world).
Proof.
  apply (unknown_uuid_raises_request_error AIGradingWorkflow_complete
           AITrainingWorkflow_complete sample_world "abcd1234" ∅ ∅
           "AIGradingWorkflow matching query does not exist."
           "AITrainingWorkflow matching query does not exist.");
    reflexivity.
Defined.

(** ** Dict comprehensions *)

Lemma dict_comprehension_snoc {A V} (key : A → string) (val : A → V) xs x :
  dict_comprehension key val (xs ++ [x])
    = <[key x := val x]> (dict_comprehension key val xs).
Proof. unfold dict_comprehension. rewrite foldl_app. reflexivity. Qed.

Lemma dict_comprehension_dom {A V} (key : A → string) (val : A → V) xs :
  dom (dict_comprehension key val xs) = list_to_set (key <$> xs).
Proof.
  induction xs as [ | x xs IH ] using rev_ind.
  - unfold dict_comprehension. cbn. apply dom_empty_L.
  - rewrite dict_comprehension_snoc, dom_insert_L, IH.
    rewrite fmap_app, list_to_set_app_L. cbn.
    rewrite (right_id_L ∅ (∪)). apply (comm_L (∪)).
Qed.

(** The entry of a key is written by the last element that has this key. *)
Lemma dict_comprehension_last {A V} (key : A → string) (val : A → V) xs i x :
  xs !! i = Some x →
  (∀ j y, i < j → xs !! j = Some y → key y ≠ key x) →
  dict_comprehension key val xs !! key x = Some (val x).
Proof.
  revert i x. induction xs as [ | z xs IH ] using rev_ind; intros i x Hi Hlast.
  - rewrite lookup_nil in Hi. discriminate.
  - rewrite dict_comprehension_snoc.
    destruct (decide (i < length xs)) as [Hlt | Hge].
    + rewrite lookup_app_l in Hi by exact Hlt.
      assert (key z ≠ key x) as Hne.
      { apply (Hlast (length xs) z Hlt).
        rewrite lookup_app_r by lia. by rewrite Nat.sub_diag. }
      rewrite lookup_insert_ne by exact Hne.
      apply (IH i x Hi). intros j y Hij Hj.
      apply (Hlast j y Hij). apply lookup_app_l_Some. exact Hj.
    + rewrite lookup_app_r in Hi by lia.
      destruct (i - length xs) as [ | n ] eqn:Hn; cbn in Hi.
      * injection Hi as ->. apply lookup_insert_eq.
      * discriminate.
Qed.

Lemma dict_comprehension_no_dup {A V} (key : A → string) (val : A → V) xs x :
  NoDup (key <$> xs) → x ∈ xs →
  dict_comprehension key val xs !! key x = Some (val x).
Proof.
  intros Hnd Hx. apply list_elem_of_lookup in Hx as [i Hi].
  apply (dict_comprehension_last key val xs i x Hi).
  intros j y Hij Hj Heq.
  assert (i = j) as Hsame; [ | lia ].
  apply (NoDup_lookup (key <$> xs) i j (key x)); [ exact Hnd | | ].
  - by rewrite list_lookup_fmap, Hi.
  - by rewrite list_lookup_fmap, Hj, <- Heq.
Qed.

Lemma scores_of_last_options_comprehension options :
  scores_of_last_options options
    (dict_comprehension CriterionOption.criterion_name
       (λ option, PInt (CriterionOption.points option)) options).
Proof.
  split.
  - apply dict_comprehension_dom.
  - intros i option Hi Hlast.
    apply (dict_comprehension_last CriterionOption.criterion_name
             (λ option, PInt (CriterionOption.points option)) options i option Hi).
    exact Hlast.
Qed.

(** ** Training parameters *)

Lemma text_of_answer_source answer :
  text_of_answer answer
    match answer with
    | PDict d => dict_get d "answer" (PStr "")
    | _ => answer
    end.
Proof.
  unfold text_of_answer, dict_get.
  destruct answer as [ | | | | | d ]; try reflexivity.
  destruct (d !! "answer"); reflexivity.
Qed.

Lemma returned_example_ok s example :
  options_selected_all example s
    = (Ok (TrainingExample.options_selected example), s) →
  ∃ returned,
    returned_example example s = (Ok returned, s) ∧
    describes_example example returned.
Proof.
  intros Hopt. eexists. split.
  - unfold returned_example.
    rewrite (run_bind_ok _ _ _ _ _ Hopt). reflexivity.
  - eexists _, _. split; [ reflexivity | ]. split.
    + apply text_of_answer_source.
    + apply scores_of_last_options_comprehension.
Qed.

Lemma mapM_returned_example_ok s examples :
  (∀ example,
     options_selected_all example s
       = (Ok (TrainingExample.options_selected example), s)) →
  ∃ returned_examples,
    mapM returned_example examples s = (Ok returned_examples, s) ∧
    Forall2 describes_example examples returned_examples.
Proof.
  intros Hdb. induction examples as [ | example examples IH ].
  - exists []. split; [ reflexivity | constructor ].
  - destruct IH as (rest & Hrest & Hall).
    destruct (returned_example_ok s example (Hdb example))
      as (r & Hr & Hdescr).
    exists (r :: rest). split; [ | by constructor ].
    cbn [mapM]. rewrite (run_bind_ok _ _ _ _ _ Hr).
    rewrite (run_bind_ok _ _ _ _ _ Hrest). reflexivity.
Qed.

(** What [get_training_task_params] computes from any rows: the returned
    dict carries the algorithm id of the workflow and one dict per training
    example, in order, with its [text] and with the [scores] that the dict
    comprehension builds from the selected options. *)
Lemma get_training_task_params_returns s uuid workflow :
  AITrainingWorkflow_objects_get uuid s = (Ok workflow, s) →
  training_examples_all workflow s
    = (Ok (AITrainingWorkflow.training_examples workflow), s) →
  (∀ example,
     options_selected_all example s
       = (Ok (TrainingExample.options_selected example), s)) →
  ∃ returned_examples,
    get_training_task_params uuid s
      = (Ok (PDict (<["training_examples" := PList returned_examples]>
                    (<["algorithm_id" :=
                        PStr (AITrainingWorkflow.algorithm_id workflow)]> ∅))),
         s) ∧
    Forall2 describes_example
      (AITrainingWorkflow.training_examples workflow) returned_examples.
Proof.
  intros Hget Hex Hopt.
  destruct (mapM_returned_example_ok s
              (AITrainingWorkflow.training_examples workflow) Hopt)
    as (returned & Hmap & Hall).
  exists returned. split; [ | exact Hall ].
  unfold get_training_task_params. apply try_except_ok.
  rewrite (run_bind_ok _ _ _ _ _ Hget).
  rewrite (run_bind_ok _ _ _ _ _ Hex).
  rewrite (run_bind_ok _ _ _ _ _ Hmap). reflexivity.
Qed.

(** Outside the data model: were two options of one criterion selected for
    an example, [scores] would record the later one. *)
Lemma get_training_task_params_shadowed_option :
  get_training_task_params "training-shadowed" sample_world
    = (Ok (PDict
             (<["training_examples" :=
                  PList [ PDict (<["text" := PStr "Example answer"]>
                                 (<["scores" :=
                                      PDict (<["vocabulary" := PInt 3]> ∅)]>
                                  ∅)) ]]>
              (<["algorithm_id" := PStr "ease"]> ∅))),
       sample_world) ∧
  ¬ scores_of_every_option (TrainingExample.options_selected shadowed_example)
      (<["vocabulary" := PInt 3]> ∅).
Proof.
  split; [ reflexivity | ].
  intros Hall.
  specialize (Hall (CriterionOption.Build "vocabulary" 1)).
  cbn in Hall. rewrite lookup_insert_eq in Hall.
  assert (Some (PInt 3) = Some (PInt 1)) as Heq; [ | discriminate Heq ].
  apply Hall. apply list_elem_of_here.
Qed.

(** When every criterion is selected at most once, the two readings of
    [scores] agree. *)
Lemma scores_of_last_options_no_dup options scores :
  NoDup (CriterionOption.criterion_name <$> options) →
  scores_of_last_options options scores →
  scores_of_every_option options scores.
Proof.
  intros Hnd [_ Hlast] option Hin.
  apply list_elem_of_lookup in Hin as [i Hi].
  apply (Hlast i option Hi). intros j later Hij Hj Heq.
  assert (i = j) as Hsame; [ | lia ].
  apply (NoDup_lookup (CriterionOption.criterion_name <$> options) i j
           (CriterionOption.criterion_name option)); [ exact Hnd | | ].
  - by rewrite list_lookup_fmap, Hi.
  - by rewrite list_lookup_fmap, Hj, <- Heq.
Qed.

Lemma describes_example_returns example returned :
  one_option_per_criterion example →
  describes_example example returned →
  returns_example example returned.
Proof.
  intros Hone (text & scores & Hreturned & Htext & Hscores).
  exists text, scores. split; [ exact Hreturned | ]. split; [ exact Htext | ].
  split; [ exact (proj1 Hscores) | ].
  by apply scores_of_last_options_no_dup.
Qed.

(** C9: [get_training_task_params] tolerates two shapes of answer.  For a
    training workflow that exists, whose examples and their options are read
    and carry one option per criterion, the returned dict carries the
    algorithm id of the workflow and one dict per training example, in
    order.  The [text] of each is the answer when the answer is not a dict,
    its entry [answer] when it is a dict that has one, and the empty string
    otherwise; its [scores] map the criterion name of every selected option
    to the integer points of that option, and have no other key. *)
Theorem get_training_task_params_examples s uuid workflow :
  AITrainingWorkflow_objects_get uuid s = (Ok workflow, s) →
  training_examples_all workflow s
    = (Ok (AITrainingWorkflow.training_examples workflow), s) →
  (∀ example,
     options_selected_all example s
       = (Ok (TrainingExample.options_selected example), s)) →
  Forall one_option_per_criterion
    (AITrainingWorkflow.training_examples workflow) →
  ∃ returned_examples,
    get_training_task_params uuid s
      = (Ok (PDict (<["training_examples" := PList returned_examples]>
                    (<["algorithm_id" :=
                        PStr (AITrainingWorkflow.algorithm_id workflow)]> ∅))),
         s) ∧
    Forall2 returns_example
      (AITrainingWorkflow.training_examples workflow) returned_examples.
Proof.
  intros Hget Hex Hopt Hone.
  destruct (get_training_task_params_returns s uuid workflow Hget Hex Hopt)
    as (returned & Hrun & Hall).
  exists returned. split; [ exact Hrun | ].
  clear Hrun Hex Hget.
  induction Hall as [ | example r examples rs Hdescr Hall IH ];
    [ constructor | ].
  apply Forall_cons in Hone as [Hfirst Hrest].
  constructor; [ by apply describes_example_returns | by apply IH ].
Qed.

Lemma get_training_task_params_examples_witness :
  ∃ returned_examples,
    get_training_task_params "training-ready" sample_world
      = (Ok (PDict (<["training_examples" := PList returned_examples]>
                    (<["algorithm_id" := PStr "ease"]> ∅))),
         sample_world) ∧
    Forall2 returns_example sample_examples returned_examples.
Proof.
  apply (get_training_task_params_examples sample_world "training-ready"
           (AITrainingWorkflow.Build sample_examples "ease"
              {["vocabulary"; "grammar"]} None false));
    [ reflexivity | reflexivity | intros example; reflexivity | ].
  repeat (apply Forall_cons; split); [ .. | apply Forall_nil ];
    unfold one_option_per_criterion; cbn;
    apply (bool_decide_unpack _); vm_compute; exact I.
Defined.

(** ** Completion of a training workflow *)

(** C4: an incomplete training workflow that exists and has no training
    example cannot be completed.  [complete] raises [NoTrainingExamples], which
    [create_classifiers] logs and raises again as [AITrainingInternalError];
    the stored workflow is the same, incomplete. *)
Theorem create_classifiers_no_training_examples s uuid workflow classifier_set :
  AITrainingWorkflow_objects_get uuid s = (Ok workflow, s) →
  AITrainingWorkflow.is_complete workflow = false →
  training_examples_all workflow s = (Ok [], s) →
  let msg := "No training examples were provided for the training workflow with UUID "
             +:+ uuid in
  AITrainingWorkflow_complete uuid workflow classifier_set s
    = (Raise (Exn NoTrainingExamples msg), s) ∧
  create_classifiers AITrainingWorkflow_complete uuid classifier_set s
    = (Raise (Exn AITrainingInternalError msg), logged s ERROR msg) ∧
  AITrainingWorkflow_objects_get uuid (logged s ERROR msg)
    = (Ok workflow, logged s ERROR msg).
Proof.
  intros Hget Hopen Hnone msg.
  assert (AITrainingWorkflow_complete uuid workflow classifier_set s
            = (Raise (Exn NoTrainingExamples msg), s)) as Hcomplete.
  { unfold AITrainingWorkflow_complete.
    rewrite (run_bind_ok _ _ _ _ _ Hnone). reflexivity. }
  split; [ exact Hcomplete | ]. split.
  - unfold create_classifiers.
    erewrite run_bind_raise; [ reflexivity | ].
    erewrite try_except_raise.
    2:{ rewrite (run_bind_ok _ _ _ _ _ Hget). rewrite Hopen. exact Hcomplete. }
    reflexivity.
  - by apply AITrainingWorkflow_objects_get_logged.
Qed.

Lemma create_classifiers_no_training_examples_witness :
  AITrainingWorkflow_complete "training-empty"
      (AITrainingWorkflow.Build [] "ease" {["vocabulary"; "grammar"]} None false)
      sample_classifiers sample_world
    = (Raise (Exn NoTrainingExamples
         "No training examples were provided for the training workflow with UUID training-empty"),
       sample_world) ∧
  create_classifiers AITrainingWorkflow_complete "training-empty"
      sample_classifiers sample_world
    = (Raise (Exn AITrainingInternalError
         "No training examples were provided for the training workflow with UUID training-empty"),
       logged sample_world ERROR
         "No training examples were provided for the training workflow with UUID training-empty") ∧
  AITrainingWorkflow_objects_get "training-empty"
      (logged sample_world ERROR
         "No training examples were provided for the training workflow with UUID training-empty")
    = (Ok (AITrainingWorkflow.Build [] "ease" {["vocabulary"; "grammar"]}
             None false),
       logged sample_world ERROR
         "No training examples were provided for the training workflow with UUID training-empty").
Proof.
  apply (create_classifiers_no_training_examples sample_world "training-empty"
           (AITrainingWorkflow.Build [] "ease" {["vocabulary"; "grammar"]}
              None false)
           sample_classifiers);
    reflexivity.
Defined.



(** The model of [complete] does complete: with at least one example and
    classifiers for exactly the criteria of the rubric, the first delivery
    attaches the classifier set and marks the workflow complete. *)
Lemma create_classifiers_completes s uuid workflow classifier_set :
  faults s = no_faults →
  training_workflows s !! uuid = Some workflow →
  AITrainingWorkflow.is_complete workflow = false →
  AITrainingWorkflow.training_examples workflow ≠ [] →
  dom classifier_set = AITrainingWorkflow.rubric_criteria workflow →
  ∃ s1 completed,
    create_classifiers AITrainingWorkflow_complete uuid classifier_set s
      = (Ok PNone, s1) ∧
    training_workflows s1 !! uuid = Some completed ∧
    AITrainingWorkflow.is_complete completed = true ∧
    AITrainingWorkflow.classifier_set completed
      = Some (AIClassifierSet.Build classifier_set).
Proof.
  intros Hf Hrow Hopen Hex Hdom.
  assert (∀ op, faults s op = None) as Hok by (intros op; by rewrite Hf).
  destruct (AITrainingWorkflow.training_examples workflow) as [ | e es ] eqn:Hexs;
    [ done | ].
  eexists _, _. split; [ | split; [ | split ] ].
  - unfold create_classifiers.
    erewrite run_bind_ok; [ reflexivity | ].
    apply try_except_ok.
    rewrite (run_bind_ok _ _ _ _ _
               (AITrainingWorkflow_objects_get_found _ _ _ (Hok _) Hrow)).
    rewrite Hopen.
    unfold AITrainingWorkflow_complete, training_examples_all.
    rewrite run_bind, run_bind, (io_ok _ _ (Hok _)). cbn [mret M_ret].
    rewrite Hexs, bool_decide_eq_true_2 by exact Hdom.
    rewrite (run_bind_ok _ _ _ _ _ (io_ok _ _ (Hok _))).
    rewrite (run_bind_ok _ _ _ _ _ (io_ok _ _ (Hok _))).
    rewrite (run_bind_ok _ _ _ _ _ (io_ok _ _ (Hok _))).
    reflexivity.
  - cbn. apply lookup_insert_eq.
  - reflexivity.
  - reflexivity.
Qed.

(** ** Student training *)

(** C6: the student-training step advances exactly when the selection of the
    learner is the instructor-defined answer of the current example.  For a
    learner with a submission and a current example whose instructor answer
    selects options of the rubric: a request with that answer is answered
    with [success] and [correct], and one more example is completed, so that
    the step shows the next example, or the training-complete view after the
    last one; a request that selects options of the rubric but differs from
    that answer is answered with [success] and not [correct], and the
    workflow is unchanged; and no request at all advances the workflow unless
    it carries that answer. *)
Theorem training_assess_advances_when_correct
    (p : StudentTraining.problem) (w : StudentTraining.workflow)
    (ex : StudentTraining.example) :
  StudentTraining.has_submission w = true →
  StudentTraining.current_example p w = Some ex →
  StudentTraining.valid_selection (StudentTraining.rubric p)
    (StudentTraining.correct_options ex) = true →
  let advanced :=
    StudentTraining.Workflow true (S (StudentTraining.num_completed w)) in
  (StudentTraining.training_assess p
       (StudentTraining.OptionsDict (StudentTraining.correct_options ex)) w
     = (StudentTraining.Response true "" (Some true), advanced) ∧
   StudentTraining.training_path_and_context p advanced
     = match StudentTraining.examples p
               !! S (StudentTraining.num_completed w) with
       | Some next =>
           StudentTraining.ViewExample (S (StudentTraining.num_completed w))
             (StudentTraining.essay next)
       | None => StudentTraining.ViewComplete
       end) ∧
  (∀ selected,
     StudentTraining.valid_selection (StudentTraining.rubric p) selected = true →
     selected ≠ StudentTraining.correct_options ex →
     StudentTraining.training_assess p (StudentTraining.OptionsDict selected) w
       = (StudentTraining.Response true "" (Some false), w)) ∧
  (∀ data r w',
     StudentTraining.training_assess p data w = (r, w') →
     StudentTraining.num_completed w' ≠ StudentTraining.num_completed w →
     data = StudentTraining.OptionsDict (StudentTraining.correct_options ex)).
Proof.
  intros Hsub Hcur Hvalid advanced. split; [ split | split ].
  - unfold StudentTraining.training_assess.
    rewrite Hsub, Hcur, Hvalid. cbn [negb].
    rewrite bool_decide_eq_true_2 by reflexivity. reflexivity.
  - unfold StudentTraining.training_path_and_context,
      StudentTraining.current_example. reflexivity.
  - intros selected Hsel Hdiff.
    unfold StudentTraining.training_assess.
    rewrite Hsub, Hcur, Hsel. cbn [negb].
    rewrite bool_decide_eq_false_2 by exact Hdiff. reflexivity.
  - intros data r w' Hrun Hmoved.
    unfold StudentTraining.training_assess in Hrun.
    destruct data as [ | v | selected ];
      try (injection Hrun as _ <-; done).
    rewrite Hsub, Hcur in Hrun. cbn [negb] in Hrun.
    destruct (StudentTraining.valid_selection _ selected);
      cbn [negb] in Hrun; [ | injection Hrun as _ <-; done ].
    destruct (bool_decide_reflect (selected = StudentTraining.correct_options ex))
      as [ -> | _ ]; [ reflexivity | injection Hrun as _ <-; done ].
Qed.

Lemma training_assess_advances_when_correct_witness :
  (StudentTraining.training_assess sample_problem
       (StudentTraining.OptionsDict
          (StudentTraining.correct_options first_example))
       sample_learner
     = (StudentTraining.Response true "" (Some true),
        StudentTraining.Workflow true 1) ∧
   StudentTraining.training_path_and_context sample_problem
       (StudentTraining.Workflow true 1)
     = match StudentTraining.examples sample_problem !! 1 with
       | Some next => StudentTraining.ViewExample 1 (StudentTraining.essay next)
       | None => StudentTraining.ViewComplete
       end) ∧
  (∀ selected,
     StudentTraining.valid_selection (StudentTraining.rubric sample_problem)
       selected = true →
     selected ≠ StudentTraining.correct_options first_example →
     StudentTraining.training_assess sample_problem
         (StudentTraining.OptionsDict selected) sample_learner
       = (StudentTraining.Response true "" (Some false), sample_learner)) ∧
  (∀ data r w',
     StudentTraining.training_assess sample_problem data sample_learner
       = (r, w') →
     StudentTraining.num_completed w'
       ≠ StudentTraining.num_completed sample_learner →
     data = StudentTraining.OptionsDict
              (StudentTraining.correct_options first_example)).
Proof.
  apply (training_assess_advances_when_correct sample_problem sample_learner
           first_example);
    vm_compute; reflexivity.
Defined.

(** The scenario of [test_updates_workflow]: two correct assessments in a row
    complete the training. *)
Example test_updates_workflow :
  let first := <["Vocabulary" := "Good"]> (<["Grammar" := "Excellent"]> ∅) in
  let second := <["Vocabulary" := "Excellent"]> (<["Grammar" := "Poor"]> ∅) in
  let '(resp1, w1) :=
    StudentTraining.training_assess sample_problem
      (StudentTraining.OptionsDict first) sample_learner in
  let '(resp2, w2) :=
    StudentTraining.training_assess sample_problem
      (StudentTraining.OptionsDict second) w1 in
  resp1 = StudentTraining.Response true "" (Some true) ∧
  StudentTraining.training_path_and_context sample_problem w1
    = StudentTraining.ViewExample 1 "Second training essay" ∧
  resp2 = StudentTraining.Response true "" (Some true) ∧
  StudentTraining.training_path_and_context sample_problem w2
    = StudentTraining.ViewComplete.
Proof. vm_compute. done. Qed.

(** The scenarios of [test_incorrect], [test_request_error] and
    [test_invalid_options_dict]. *)
Example test_incorrect_and_invalid_requests :
  StudentTraining.training_assess sample_problem
      (StudentTraining.OptionsDict
         (<["Vocabulary" := "Poor"]> (<["Grammar" := "Poor"]> ∅)))
      sample_learner
    = (StudentTraining.Response true "" (Some false), sample_learner) ∧
  StudentTraining.success
      (StudentTraining.training_assess sample_problem
         StudentTraining.OptionsMissing sample_learner).1 = false ∧
  StudentTraining.success
      (StudentTraining.training_assess sample_problem
         (StudentTraining.OptionsNotADict (PStr "foo")) sample_learner).1
    = false ∧
  StudentTraining.success
      (StudentTraining.training_assess sample_problem
         (StudentTraining.OptionsDict
            (<["Bananas" := "Excellent"]> (<["Grammar" := "Poor"]> ∅)))
         sample_learner).1 = false.
Proof. vm_compute. done. Qed.

(** * Further properties of the API *)

(** ** Outcomes of the accesses *)

Lemma io_cases (op : io_op) (s : world) :
  (faults s op = None ∧ io op s = (Ok (), s)) ∨
  (∃ e, faults s op = Some e ∧ io op s = (Raise e, s)).
Proof.
  unfold io. destruct (faults s op) as [ e | ]; [ right | left ]; eauto.
Qed.

(** A lookup leaves the world as it is, and it finds the row, raises
    [DoesNotExist], or raises what the database raised. *)
Lemma AIGradingWorkflow_objects_get_cases s uuid :
  (∃ workflow, grading_workflows s !! uuid = Some workflow ∧
     AIGradingWorkflow_objects_get uuid s = (Ok workflow, s)) ∨
  (∃ msg, AIGradingWorkflow_objects_get uuid s
            = (Raise (Exn AIGradingWorkflow_DoesNotExist msg), s)) ∨
  (∃ e, faults s (DbSelect "AIGradingWorkflow") = Some e ∧
     AIGradingWorkflow_objects_get uuid s = (Raise e, s)).
Proof.
  destruct (io_cases (DbSelect "AIGradingWorkflow") s)
    as [ [Hdb _] | (e & Hdb & Hio) ].
  - destruct (grading_workflows s !! uuid) as [ workflow | ] eqn:Hrow.
    + left. exists workflow. split; [ reflexivity | ].
      by apply AIGradingWorkflow_objects_get_found.
    + right. left. eexists.
      by apply AIGradingWorkflow_objects_get_missing.
  - right. right. exists e. split; [ exact Hdb | ].
    unfold AIGradingWorkflow_objects_get. by apply run_bind_raise.
Qed.

Lemma AITrainingWorkflow_objects_get_cases s uuid :
  (∃ workflow, training_workflows s !! uuid = Some workflow ∧
     AITrainingWorkflow_objects_get uuid s = (Ok workflow, s)) ∨
  (∃ msg, AITrainingWorkflow_objects_get uuid s
            = (Raise (Exn AITrainingWorkflow_DoesNotExist msg), s)) ∨
  (∃ e, faults s (DbSelect "AITrainingWorkflow") = Some e ∧
     AITrainingWorkflow_objects_get uuid s = (Raise e, s)).
Proof.
  destruct (io_cases (DbSelect "AITrainingWorkflow") s)
    as [ [Hdb _] | (e & Hdb & Hio) ].
  - destruct (training_workflows s !! uuid) as [ workflow | ] eqn:Hrow.
    + left. exists workflow. split; [ reflexivity | ].
      by apply AITrainingWorkflow_objects_get_found.
    + right. left. eexists.
      by apply AITrainingWorkflow_objects_get_missing.
  - right. right. exists e. split; [ exact Hdb | ].
    unfold AITrainingWorkflow_objects_get. by apply run_bind_raise.
Qed.

Lemma classifiers_dict_cases s classifier_set :
  classifiers_dict classifier_set s
    = (Ok (AIClassifierSet.classifiers classifier_set), s) ∨
  (∃ e, (faults s (DbSelect "AIClassifier") = Some e ∨
         faults s StorageRead = Some e) ∧
     classifiers_dict classifier_set s = (Raise e, s)).
Proof.
  unfold classifiers_dict.
  destruct (io_cases (DbSelect "AIClassifier") s)
    as [ [_ Hdb] | (e & Hdb & Hio) ].
  - rewrite (run_bind_ok _ _ _ _ _ Hdb).
    destruct (io_cases StorageRead s) as [ [_ Hst] | (e & Hst & Hio) ].
    + left. rewrite (run_bind_ok _ _ _ _ _ Hst). reflexivity.
    + right. exists e. split; [ by right | by apply run_bind_raise ].
  - right. exists e. split; [ by left | by apply run_bind_raise ].
Qed.

Lemma training_examples_all_cases s workflow :
  training_examples_all workflow s
    = (Ok (AITrainingWorkflow.training_examples workflow), s) ∨
  (∃ e, faults s (DbSelect "TrainingExample") = Some e ∧
     training_examples_all workflow s = (Raise e, s)).
Proof.
  unfold training_examples_all.
  destruct (io_cases (DbSelect "TrainingExample") s)
    as [ [_ Hdb] | (e & Hdb & Hio) ].
  - left. rewrite (run_bind_ok _ _ _ _ _ Hdb). reflexivity.
  - right. exists e. split; [ exact Hdb | by apply run_bind_raise ].
Qed.

(** The clause that handles an exception of a given class. *)
Lemma try_except_class {A} (body : M A) clauses s s' c msg :
  body s = (Raise (Exn c msg), s') →
  try_except body clauses s =
    match find (λ cl, bool_decide (c ∈ cl.1)) clauses with
    | Some cl => cl.2 (Exn c msg) s'
    | None => (Raise (Exn c msg), s')
    end.
Proof. intros Hb. rewrite (try_except_raise _ _ _ _ _ Hb). reflexivity. Qed.

(** ** The read of the classifiers *)

Lemma get_grading_task_params_returns_value s uuid workflow classifier_set :
  AIGradingWorkflow_objects_get uuid s = (Ok workflow, s) →
  AIGradingWorkflow.classifier_set workflow = Some classifier_set →
  classifiers_dict classifier_set s
    = (Ok (AIClassifierSet.classifiers classifier_set), s) →
  ∃ v, get_grading_task_params uuid s = (Ok v, s).
Proof.
  intros Hget Hcs Hread. eexists. unfold get_grading_task_params.
  rewrite (run_bind_ok _ _ s s workflow) by (by apply try_except_ok).
  rewrite Hcs. apply try_except_ok.
  rewrite (run_bind_ok _ _ _ _ _ Hread). reflexivity.
Qed.

Lemma get_grading_task_params_read_error s uuid workflow classifier_set e :
  AIGradingWorkflow_objects_get uuid s = (Ok workflow, s) →
  AIGradingWorkflow.classifier_set workflow = Some classifier_set →
  classifiers_dict classifier_set s = (Raise e, s) →
  let msg := "An unexpected error occurred while retrieving "
             +:+ "classifiers for the grading workflow with UUID "
             +:+ uuid +:+ ": " +:+ exn_str e in
  (exn_class e ∈ [ValueError; IOError; DatabaseError] →
   get_grading_task_params uuid s
     = (Raise (Exn AIGradingInternalError msg), logged s ERROR msg)) ∧
  (exn_class e ∉ [ValueError; IOError; DatabaseError] →
   get_grading_task_params uuid s = (Raise e, s)).
Proof.
  intros Hget Hcs Hread msg.
  assert (get_grading_task_params uuid s
    = match find (λ cl : list exc_class * (exn → M pyval), handled e cl.1)
              [ ([ValueError; IOError; DatabaseError], λ ex,
                   let msg := "An unexpected error occurred while retrieving "
                              +:+ "classifiers for the grading workflow with UUID "
                              +:+ uuid +:+ ": " +:+ exn_str ex in
                   logger_exception msg;;
                   raise AIGradingInternalError msg) ] with
      | Some cl => cl.2 e s
      | None => (Raise e, s)
      end) as Hrun.
  { unfold get_grading_task_params.
    rewrite (run_bind_ok _ _ s s workflow) by (by apply try_except_ok).
    rewrite Hcs. apply try_except_raise. by apply run_bind_raise. }
  rewrite Hrun. cbn [find fst snd]. unfold handled. split; intros Hclass.
  - rewrite bool_decide_eq_true_2 by exact Hclass. reflexivity.
  - rewrite bool_decide_eq_false_2 by exact Hclass. reflexivity.
Qed.

(** ** Failures of the database and of the storage *)

(** X1: when the lookup of the workflow raises [DatabaseError], each of the
    four operations raises the internal-error variant of its family and
    writes one ERROR record with the same text; no row changes and neither
    [complete] is called.  The text quotes the database error, except for
    [get_training_task_params], whose text only names the workflow. *)
Theorem lookup_database_error_is_internal_error
    (grading_complete : string → AIGradingWorkflow.t → gmap string Z → M ())
    (training_complete : string → AITrainingWorkflow.t → gmap string pyval → M ())
    s uuid criterion_scores classifier_set ex ex' :
  AIGradingWorkflow_objects_get uuid s = (Raise (Exn DatabaseError ex), s) →
  AITrainingWorkflow_objects_get uuid s = (Raise (Exn DatabaseError ex'), s) →
  let grading_msg :=
    "An unexpected error occurred while retrieving the "
    +:+ "AI grading workflow with uuid " +:+ uuid +:+ ": " +:+ ex in
  let params_msg :=
    "An unexpected error occurred while retrieving "
    +:+ "training examples for the AI training workflow with UUID " +:+ uuid in
  let classifiers_msg :=
    "An unexpected error occurred while creating the classifier "
    +:+ "set for training workflow UUID " +:+ uuid +:+ ": " +:+ ex' in
  get_grading_task_params uuid s
    = (Raise (Exn AIGradingInternalError grading_msg),
       logged s ERROR grading_msg) ∧
  create_assessment grading_complete uuid criterion_scores s
    = (Raise (Exn AIGradingInternalError grading_msg),
       logged s ERROR grading_msg) ∧
  get_training_task_params uuid s
    = (Raise (Exn AITrainingInternalError params_msg),
       logged s ERROR params_msg) ∧
  create_classifiers training_complete uuid classifier_set s
    = (Raise (Exn AITrainingInternalError classifiers_msg),
       logged s ERROR classifiers_msg).
Proof.
  intros Hgget Htget grading_msg params_msg classifiers_msg.
  repeat split.
  - unfold get_grading_task_params.
    erewrite run_bind_raise; [ reflexivity | ].
    rewrite (try_except_class _ _ _ _ _ _ Hgget). reflexivity.
  - unfold create_assessment.
    erewrite run_bind_raise; [ reflexivity | ].
    rewrite (try_except_class _ _ _ _ _ _ Hgget). reflexivity.
  - unfold get_training_task_params.
    rewrite (try_except_class _ _ _ _ _ _ (run_bind_raise _ _ _ _ _ Htget)).
    reflexivity.
  - unfold create_classifiers.
    erewrite run_bind_raise; [ reflexivity | ].
    rewrite (try_except_class _ _ _ _ _ _ (run_bind_raise _ _ _ _ _ Htget)).
    reflexivity.
Qed.

Lemma lookup_database_error_is_internal_error_witness :
  get_grading_task_params "grading-ready" offline_world
    = (Raise (Exn AIGradingInternalError
         "An unexpected error occurred while retrieving the AI grading workflow with uuid grading-ready: connection refused"),
       logged offline_world ERROR
         "An unexpected error occurred while retrieving the AI grading workflow with uuid grading-ready: connection refused") ∧
  create_assessment AIGradingWorkflow_complete "grading-ready" ∅ offline_world
    = (Raise (Exn AIGradingInternalError
         "An unexpected error occurred while retrieving the AI grading workflow with uuid grading-ready: connection refused"),
       logged offline_world ERROR
         "An unexpected error occurred while retrieving the AI grading workflow with uuid grading-ready: connection refused") ∧
  get_training_task_params "grading-ready" offline_world
    = (Raise (Exn AITrainingInternalError
         "An unexpected error occurred while retrieving training examples for the AI training workflow with UUID grading-ready"),
       logged offline_world ERROR
         "An unexpected error occurred while retrieving training examples for the AI training workflow with UUID grading-ready") ∧
  create_classifiers AITrainingWorkflow_complete "grading-ready" ∅ offline_world
    = (Raise (Exn AITrainingInternalError
         "An unexpected error occurred while creating the classifier set for training workflow UUID grading-ready: connection refused"),
       logged offline_world ERROR
         "An unexpected error occurred while creating the classifier set for training workflow UUID grading-ready: connection refused").
Proof.
  apply (lookup_database_error_is_internal_error AIGradingWorkflow_complete
           AITrainingWorkflow_complete offline_world "grading-ready" ∅ ∅
           "connection refused" "connection refused");
    reflexivity.
Defined.

(** X2: when the classifiers of the classifier set of a workflow cannot be
    read, because the read raises [ValueError], [IOError] or [DatabaseError],
    [get_grading_task_params] raises [AIGradingInternalError] with a text
    that quotes the error and writes that text as one ERROR record; an
    exception of any other class is raised as it is, unlogged. *)
Theorem get_grading_task_params_unreadable_classifiers
    s uuid workflow classifier_set e :
  AIGradingWorkflow_objects_get uuid s = (Ok workflow, s) →
  AIGradingWorkflow.classifier_set workflow = Some classifier_set →
  classifiers_dict classifier_set s = (Raise e, s) →
  let msg := "An unexpected error occurred while retrieving "
             +:+ "classifiers for the grading workflow with UUID "
             +:+ uuid +:+ ": " +:+ exn_str e in
  (exn_class e ∈ [ValueError; IOError; DatabaseError] →
   get_grading_task_params uuid s
     = (Raise (Exn AIGradingInternalError msg), logged s ERROR msg)) ∧
  (exn_class e ∉ [ValueError; IOError; DatabaseError] →
   get_grading_task_params uuid s = (Raise e, s)).
Proof.
  intros Hget Hcs Hread.
  exact (get_grading_task_params_read_error s uuid workflow classifier_set e
           Hget Hcs Hread).
Qed.

Lemma get_grading_task_params_unreadable_classifiers_witness :
  (exn_class (Exn IOError "storage unavailable")
     ∈ [ValueError; IOError; DatabaseError] →
   get_grading_task_params "grading-ready" unreadable_world
     = (Raise (Exn AIGradingInternalError
          "An unexpected error occurred while retrieving classifiers for the grading workflow with UUID grading-ready: storage unavailable"),
        logged unreadable_world ERROR
          "An unexpected error occurred while retrieving classifiers for the grading workflow with UUID grading-ready: storage unavailable")) ∧
  (exn_class (Exn IOError "storage unavailable")
     ∉ [ValueError; IOError; DatabaseError] →
   get_grading_task_params "grading-ready" unreadable_world
     = (Raise (Exn IOError "storage unavailable"), unreadable_world)).
Proof.
  apply (get_grading_task_params_unreadable_classifiers unreadable_world
           "grading-ready"
           (AIGradingWorkflow.Build "An essay" "ease"
              (Some (AIClassifierSet.Build sample_classifiers)) false None)
           (AIClassifierSet.Build sample_classifiers)
           (Exn IOError "storage unavailable"));
    reflexivity.
Defined.

(** ** Everything [get_grading_task_params] can do *)

(** The call returns a value, raises one of its two errors, or lets through
    an exception of the database or of the storage that no clause lists. *)
Lemma get_grading_task_params_cases s uuid :
  (∃ v, get_grading_task_params uuid s = (Ok v, s)) ∨
  (∃ msg, get_grading_task_params uuid s
            = (Raise (Exn AIGradingRequestError msg), s)) ∨
  (∃ msg, get_grading_task_params uuid s
            = (Raise (Exn AIGradingInternalError msg), logged s ERROR msg)) ∨
  (∃ e, get_grading_task_params uuid s = (Raise e, s) ∧
     ((faults s (DbSelect "AIGradingWorkflow") = Some e ∧
       exn_class e ∉ [AIGradingWorkflow_DoesNotExist; DatabaseError]) ∨
      ((faults s (DbSelect "AIClassifier") = Some e ∨
        faults s StorageRead = Some e) ∧
       exn_class e ∉ [ValueError; IOError; DatabaseError]))).
Proof.
  destruct (AIGradingWorkflow_objects_get_cases s uuid)
    as [ (workflow & _ & Hget) | [ (m & Hget) | (e & Hfault & Hget) ] ].
  - destruct (AIGradingWorkflow.classifier_set workflow)
      as [ classifier_set | ] eqn:Hcs.
    + destruct (classifiers_dict_cases s classifier_set)
        as [ Hread | (e & Hfault & Hread) ].
      * left. destruct (get_grading_task_params_returns_value
                          s uuid workflow classifier_set Hget Hcs Hread)
          as [v Hv]. eauto.
      * destruct (get_grading_task_params_read_error
                    s uuid workflow classifier_set e Hget Hcs Hread)
          as [Hin Hout].
        destruct (decide (exn_class e ∈ [ValueError; IOError; DatabaseError]))
          as [Hclass | Hclass].
        -- right. right. left. eexists. exact (Hin Hclass).
        -- right. right. right. exists e. split; [ exact (Hout Hclass) | ].
           right. by split.
    + right. right. left. eexists.
      unfold get_grading_task_params.
      rewrite (run_bind_ok _ _ s s workflow) by (by apply try_except_ok).
      rewrite Hcs. reflexivity.
  - right. left. eexists. unfold get_grading_task_params.
    erewrite run_bind_raise; [ reflexivity | ].
    rewrite (try_except_class _ _ _ _ _ _ Hget). reflexivity.
  - destruct e as [c msg].
    destruct (decide (c = AIGradingWorkflow_DoesNotExist)) as [-> | Hne1].
    { right. left. eexists. unfold get_grading_task_params.
      erewrite run_bind_raise; [ reflexivity | ].
      rewrite (try_except_class _ _ _ _ _ _ Hget). reflexivity. }
    destruct (decide (c = DatabaseError)) as [-> | Hne2].
    { right. right. left. eexists. unfold get_grading_task_params.
      erewrite run_bind_raise; [ reflexivity | ].
      rewrite (try_except_class _ _ _ _ _ _ Hget). reflexivity. }
    right. right. right. exists (Exn c msg). split.
    + unfold get_grading_task_params.
      erewrite run_bind_raise; [ reflexivity | ].
      rewrite (try_except_class _ _ _ _ _ _ Hget).
      destruct c; try reflexivity; congruence.
    + left. split; [ exact Hfault | ]. cbn.
      intros Hin. apply elem_of_cons in Hin as [ -> | Hin ]; [ done | ].
      apply elem_of_cons in Hin as [ -> | Hin ]; [ done | ].
      by apply elem_of_nil in Hin.
Qed.

(** X3: whatever the uuid and whatever the database and the storage do,
    [get_grading_task_params] writes no row: it leaves the world as it was,
    or it adds exactly one ERROR record to the log and raises
    [AIGradingInternalError] with the text of that record. *)
Theorem get_grading_task_params_logs_only_its_error s uuid :
  logs_only_its_error AIGradingInternalError s (get_grading_task_params uuid s).
Proof.
  unfold logs_only_its_error.
  destruct (get_grading_task_params_cases s uuid)
    as [ (v & ->) | [ (msg & ->) | [ (msg & ->) | (e & -> & _) ] ] ];
    [ by left | by left | right; by exists msg | by left ].
Qed.

(** ** Completion through [create_assessment] *)

(** X5: [create_assessment] on an incomplete workflow calls [complete] once,
    with the workflow it fetched and the scores it was given, and returns
    [None] in the world that [complete] leaves.  If that completion marked
    the workflow complete, a second delivery, whatever scores it carries,
    calls nothing: the two deliveries together end in the world of the first
    completion. *)
Theorem create_assessment_two_deliveries
    (complete : string → AIGradingWorkflow.t → gmap string Z → M ())
    s s1 uuid workflow completed criterion_scores criterion_scores' :
  AIGradingWorkflow_objects_get uuid s = (Ok workflow, s) →
  AIGradingWorkflow.is_complete workflow = false →
  complete uuid workflow criterion_scores s = (Ok (), s1) →
  AIGradingWorkflow_objects_get uuid s1 = (Ok completed, s1) →
  AIGradingWorkflow.is_complete completed = true →
  create_assessment complete uuid criterion_scores s = (Ok PNone, s1) ∧
  (create_assessment complete uuid criterion_scores;;
   create_assessment complete uuid criterion_scores') s = (Ok PNone, s1).
Proof.
  intros Hget Hopen Hcomplete Hget1 Hdone.
  assert (create_assessment complete uuid criterion_scores s = (Ok PNone, s1))
    as Hfirst.
  { unfold create_assessment.
    rewrite (run_bind_ok _ _ s s workflow) by (by apply try_except_ok).
    rewrite Hopen. cbn [negb].
    erewrite run_bind_ok; [ reflexivity | ].
    by apply try_except_ok. }
  split; [ exact Hfirst | ].
  rewrite (run_bind_ok _ _ _ _ _ Hfirst).
  by apply (create_assessment_skips_complete complete s1 uuid completed).
Qed.

Lemma create_assessment_two_deliveries_witness :
  create_assessment AIGradingWorkflow_complete "grading-ready" sample_scores
      sample_world
    = (Ok PNone, graded_world) ∧
  (create_assessment AIGradingWorkflow_complete "grading-ready" sample_scores;;
   create_assessment AIGradingWorkflow_complete "grading-ready" ∅) sample_world
    = (Ok PNone, graded_world).
Proof.
  apply (create_assessment_two_deliveries AIGradingWorkflow_complete
           sample_world graded_world "grading-ready" ready_grading_workflow
           graded_workflow sample_scores ∅);
    vm_compute; reflexivity.
Defined.

(** X6: of the exceptions that [complete] raises, [create_assessment]
    translates [DatabaseError] only: it logs a text that quotes the error and
    raises [AIGradingInternalError] with it.  An exception of any other class
    leaves [create_assessment] as [complete] raised it, unlogged. *)
Theorem create_assessment_complete_raises
    (complete : string → AIGradingWorkflow.t → gmap string Z → M ())
    s s' uuid workflow criterion_scores e :
  AIGradingWorkflow_objects_get uuid s = (Ok workflow, s) →
  AIGradingWorkflow.is_complete workflow = false →
  complete uuid workflow criterion_scores s = (Raise e, s') →
  let msg := "An unexpected error occurred while creating the assessment "
             +:+ "for AI grading workflow with uuid "
             +:+ uuid +:+ ": " +:+ exn_str e in
  (exn_class e = DatabaseError →
   create_assessment complete uuid criterion_scores s
     = (Raise (Exn AIGradingInternalError msg), logged s' ERROR msg)) ∧
  (exn_class e ≠ DatabaseError →
   create_assessment complete uuid criterion_scores s = (Raise e, s')).
Proof.
  intros Hget Hopen Hcomplete msg.
  assert (∀ out,
    try_except
      (if negb (AIGradingWorkflow.is_complete workflow)
       then complete uuid workflow criterion_scores
       else mret ())
      [ ([DatabaseError], λ ex,
           let msg := "An unexpected error occurred while creating the assessment "
                      +:+ "for AI grading workflow with uuid "
                      +:+ uuid +:+ ": " +:+ exn_str ex in
           logger_exception msg;;
           raise AIGradingInternalError msg) ] s = (Raise out.1, out.2) →
    create_assessment complete uuid criterion_scores s = (Raise out.1, out.2))
    as Hrun.
  { intros out Htry. unfold create_assessment.
    rewrite (run_bind_ok _ _ s s workflow) by (by apply try_except_ok).
    by apply run_bind_raise. }
  destruct e as [c text]. cbn [exn_class exn_str] in *.
  split; intros Hclass.
  - subst c. apply (Hrun (_, _)). cbn [fst snd].
    rewrite Hopen. cbn [negb].
    rewrite (try_except_class _ _ _ _ _ _ Hcomplete). reflexivity.
  - apply (Hrun (_, _)). cbn [fst snd].
    rewrite Hopen. cbn [negb].
    rewrite (try_except_class _ _ _ _ _ _ Hcomplete).
    cbn [find fst snd].
    rewrite bool_decide_eq_false_2; [ reflexivity | ].
    intros Hin. apply list_elem_of_singleton in Hin. contradiction.
Qed.

Lemma create_assessment_complete_raises_witness :
  (exn_class (Exn DatabaseError "deadlock detected") = DatabaseError →
   create_assessment (failing_complete (Exn DatabaseError "deadlock detected"))
       "grading-ready" sample_scores sample_world
     = (Raise (Exn AIGradingInternalError
          "An unexpected error occurred while creating the assessment for AI grading workflow with uuid grading-ready: deadlock detected"),
        logged sample_world ERROR
          "An unexpected error occurred while creating the assessment for AI grading workflow with uuid grading-ready: deadlock detected")) ∧
  (exn_class (Exn DatabaseError "deadlock detected") ≠ DatabaseError →
   create_assessment (failing_complete (Exn DatabaseError "deadlock detected"))
       "grading-ready" sample_scores sample_world
     = (Raise (Exn DatabaseError "deadlock detected"), sample_world)).
Proof.
  apply (create_assessment_complete_raises
           (failing_complete (Exn DatabaseError "deadlock detected"))
           sample_world sample_world "grading-ready" ready_grading_workflow
           sample_scores (Exn DatabaseError "deadlock detected"));
    reflexivity.
Defined.

(** ** Completion through [create_classifiers] *)

Lemma create_classifiers_skips_complete
    (complete : string → AITrainingWorkflow.t → gmap string pyval → M ())
    s uuid workflow classifier_set :
  AITrainingWorkflow_objects_get uuid s = (Ok workflow, s) →
  AITrainingWorkflow.is_complete workflow = true →
  create_classifiers complete uuid classifier_set s
    = (Ok PNone,
       logged s WARNING
         "AI training workflow with UUID {} already has trained classifiers.").
Proof.
  intros Hget Hdone. unfold create_classifiers.
  erewrite run_bind_ok; [ reflexivity | ].
  apply try_except_ok.
  rewrite (run_bind_ok _ _ s s workflow) by exact Hget.
  rewrite Hdone. reflexivity.
Qed.

(** X7: [create_classifiers] on an incomplete workflow calls [complete] once,
    with the workflow it fetched and the classifiers it was given, and
    returns [None] in the world that [complete] leaves, without logging.  If
    that completion marked the workflow complete, a second delivery,
    whatever classifiers it carries, calls nothing and only adds the warning
    to the log. *)
Theorem create_classifiers_two_deliveries
    (complete : string → AITrainingWorkflow.t → gmap string pyval → M ())
    s s1 uuid workflow completed classifier_set classifier_set' :
  AITrainingWorkflow_objects_get uuid s = (Ok workflow, s) →
  AITrainingWorkflow.is_complete workflow = false →
  complete uuid workflow classifier_set s = (Ok (), s1) →
  AITrainingWorkflow_objects_get uuid s1 = (Ok completed, s1) →
  AITrainingWorkflow.is_complete completed = true →
  create_classifiers complete uuid classifier_set s = (Ok PNone, s1) ∧
  (create_classifiers complete uuid classifier_set;;
   create_classifiers complete uuid classifier_set') s
    = (Ok PNone,
       logged s1 WARNING
         "AI training workflow with UUID {} already has trained classifiers.").
Proof.
  intros Hget Hopen Hcomplete Hget1 Hdone.
  assert (create_classifiers complete uuid classifier_set s = (Ok PNone, s1))
    as Hfirst.
  { unfold create_classifiers.
    erewrite run_bind_ok; [ reflexivity | ].
    apply try_except_ok.
    rewrite (run_bind_ok _ _ s s workflow) by exact Hget.
    rewrite Hopen. exact Hcomplete. }
  split; [ exact Hfirst | ].
  rewrite (run_bind_ok _ _ _ _ _ Hfirst).
  by apply (create_classifiers_skips_complete complete s1 uuid completed).
Qed.

Lemma create_classifiers_two_deliveries_witness :
  create_classifiers AITrainingWorkflow_complete "training-ready"
      sample_classifiers sample_world
    = (Ok PNone, trained_world) ∧
  (create_classifiers AITrainingWorkflow_complete "training-ready"
      sample_classifiers;;
   create_classifiers AITrainingWorkflow_complete "training-ready" ∅)
      sample_world
    = (Ok PNone,
       logged trained_world WARNING
         "AI training workflow with UUID {} already has trained classifiers.").
Proof.
  apply (create_classifiers_two_deliveries AITrainingWorkflow_complete
           sample_world trained_world "training-ready"
           ready_training_workflow trained_workflow sample_classifiers ∅);
    vm_compute; reflexivity.
Defined.

(** The body of the [try] of [create_classifiers] raises what [complete]
    raises on an incomplete workflow. *)
Lemma create_classifiers_handles
    (complete : string → AITrainingWorkflow.t → gmap string pyval → M ())
    s s' uuid workflow classifier_set e out :
  AITrainingWorkflow_objects_get uuid s = (Ok workflow, s) →
  AITrainingWorkflow.is_complete workflow = false →
  complete uuid workflow classifier_set s = (Raise e, s') →
  (∀ body : M (),
     body s = (Raise e, s') →
     try_except body
       [ ([AITrainingWorkflow_DoesNotExist], λ _,
            let msg := "Could not retrieve AI training workflow with UUID "
                       +:+ uuid in
            raise AITrainingRequestError msg);
         ([NoTrainingExamples], λ ex,
            logger_exception (exn_str ex);;
            raise AITrainingInternalError (exn_str ex));
         ([IncompleteClassifierSet], λ ex,
            let msg := "An error occurred while creating the classifier set "
                       +:+ "for the training workflow with UUID "
                       +:+ uuid +:+ ": " +:+ exn_str ex in
            raise AITrainingRequestError msg);
         ([ClassifierSerializeError; ClassifierUploadError; DatabaseError], λ ex,
            let msg := "An unexpected error occurred while creating the classifier "
                       +:+ "set for training workflow UUID "
                       +:+ uuid +:+ ": " +:+ exn_str ex in
            logger_exception msg;;
            raise AITrainingInternalError msg);
         ([DatabaseError], λ _,
            let msg := "An unexpected error occurred while creating the classifier set "
                       +:+ "for the AI training workflow with UUID "
                       +:+ uuid in
            logger_exception msg;;
            raise AITrainingInternalError msg) ] s = (Raise out.1, out.2)) →
  create_classifiers complete uuid classifier_set s = (Raise out.1, out.2).
Proof.
  intros Hget Hopen Hcomplete Hhandled. unfold create_classifiers.
  apply run_bind_raise. apply Hhandled.
  rewrite (run_bind_ok _ _ s s workflow) by exact Hget.
  rewrite Hopen. exact Hcomplete.
Qed.

(** X8: the failures of [complete] that [create_classifiers] reports as
    internal errors.  [NoTrainingExamples] is logged and raised again as
    [AITrainingInternalError] with the same text.  [ClassifierSerializeError],
    [ClassifierUploadError] and [DatabaseError] are logged and raised as
    [AITrainingInternalError] with a text that quotes the error: a
    [DatabaseError] is always reported by this clause, never by the last
    clause of the [try], whose text does not quote the error. *)
Theorem create_classifiers_complete_raises_internal
    (complete : string → AITrainingWorkflow.t → gmap string pyval → M ())
    s s' uuid workflow classifier_set e :
  AITrainingWorkflow_objects_get uuid s = (Ok workflow, s) →
  AITrainingWorkflow.is_complete workflow = false →
  complete uuid workflow classifier_set s = (Raise e, s') →
  let msg := "An unexpected error occurred while creating the classifier "
             +:+ "set for training workflow UUID "
             +:+ uuid +:+ ": " +:+ exn_str e in
  (exn_class e = NoTrainingExamples →
   create_classifiers complete uuid classifier_set s
     = (Raise (Exn AITrainingInternalError (exn_str e)),
        logged s' ERROR (exn_str e))) ∧
  (exn_class e
     ∈ [ClassifierSerializeError; ClassifierUploadError; DatabaseError] →
   create_classifiers complete uuid classifier_set s
     = (Raise (Exn AITrainingInternalError msg), logged s' ERROR msg)).
Proof.
  intros Hget Hopen Hcomplete msg.
  pose proof (create_classifiers_handles complete s s' uuid workflow
                classifier_set e) as Hrun.
  destruct e as [c text]. cbn [exn_class exn_str] in *.
  split; intros Hclass.
  - subst c. apply (Hrun (_, _) Hget Hopen Hcomplete).
    intros body Hbody. cbn [fst snd].
    rewrite (try_except_class _ _ _ _ _ _ Hbody). reflexivity.
  - apply (Hrun (_, _) Hget Hopen Hcomplete).
    intros body Hbody. cbn [fst snd].
    rewrite (try_except_class _ _ _ _ _ _ Hbody).
    apply elem_of_cons in Hclass as [ -> | Hclass ]; [ reflexivity | ].
    apply elem_of_cons in Hclass as [ -> | Hclass ]; [ reflexivity | ].
    apply list_elem_of_singleton in Hclass as ->. reflexivity.
Qed.

Lemma create_classifiers_complete_raises_internal_witness :
  (exn_class (Exn DatabaseError "deadlock detected") = NoTrainingExamples →
   create_classifiers (failing_complete (Exn DatabaseError "deadlock detected"))
       "training-ready" sample_classifiers sample_world
     = (Raise (Exn AITrainingInternalError "deadlock detected"),
        logged sample_world ERROR "deadlock detected")) ∧
  (exn_class (Exn DatabaseError "deadlock detected")
     ∈ [ClassifierSerializeError; ClassifierUploadError; DatabaseError] →
   create_classifiers (failing_complete (Exn DatabaseError "deadlock detected"))
       "training-ready" sample_classifiers sample_world
     = (Raise (Exn AITrainingInternalError
          "An unexpected error occurred while creating the classifier set for training workflow UUID training-ready: deadlock detected"),
        logged sample_world ERROR
          "An unexpected error occurred while creating the classifier set for training workflow UUID training-ready: deadlock detected")).
Proof.
  apply (create_classifiers_complete_raises_internal
           (failing_complete (Exn DatabaseError "deadlock detected"))
           sample_world sample_world "training-ready" ready_training_workflow
           sample_classifiers (Exn DatabaseError "deadlock detected"));
    reflexivity.
Defined.

(** X9: the other failures of [complete].  As one [try] covers the lookup and
    the completion, a [DoesNotExist] of the training workflows raised by
    [complete] is reported like a workflow that was not found, as
    [AITrainingRequestError].  An exception of a class that no clause lists
    leaves [create_classifiers] as [complete] raised it, unlogged. *)
Theorem create_classifiers_complete_raises_other
    (complete : string → AITrainingWorkflow.t → gmap string pyval → M ())
    s s' uuid workflow classifier_set e :
  AITrainingWorkflow_objects_get uuid s = (Ok workflow, s) →
  AITrainingWorkflow.is_complete workflow = false →
  complete uuid workflow classifier_set s = (Raise e, s') →
  (exn_class e = AITrainingWorkflow_DoesNotExist →
   create_classifiers complete uuid classifier_set s
     = (Raise (Exn AITrainingRequestError
          ("Could not retrieve AI training workflow with UUID " +:+ uuid)),
        s')) ∧
  (exn_class e
     ∉ [AITrainingWorkflow_DoesNotExist; NoTrainingExamples;
        IncompleteClassifierSet; ClassifierSerializeError;
        ClassifierUploadError; DatabaseError] →
   create_classifiers complete uuid classifier_set s = (Raise e, s')).
Proof.
  intros Hget Hopen Hcomplete.
  pose proof (create_classifiers_handles complete s s' uuid workflow
                classifier_set e) as Hrun.
  destruct e as [c text]. cbn [exn_class exn_str] in *.
  split; intros Hclass.
  - subst c. apply (Hrun (_, _) Hget Hopen Hcomplete).
    intros body Hbody. cbn [fst snd].
    rewrite (try_except_class _ _ _ _ _ _ Hbody). reflexivity.
  - apply (Hrun (_, _) Hget Hopen Hcomplete).
    intros body Hbody. cbn [fst snd].
    rewrite (try_except_class _ _ _ _ _ _ Hbody).
    destruct c; try reflexivity; exfalso; apply Hclass;
      repeat first [ apply list_elem_of_here | apply list_elem_of_further ].
Qed.

Lemma create_classifiers_complete_raises_other_witness :
  (exn_class (Exn ValueError "invalid classifier data")
     = AITrainingWorkflow_DoesNotExist →
   create_classifiers
       (failing_complete (Exn ValueError "invalid classifier data"))
       "training-ready" sample_classifiers sample_world
     = (Raise (Exn AITrainingRequestError
          ("Could not retrieve AI training workflow with UUID "
           +:+ "training-ready")),
        sample_world)) ∧
  (exn_class (Exn ValueError "invalid classifier data")
     ∉ [AITrainingWorkflow_DoesNotExist; NoTrainingExamples;
        IncompleteClassifierSet; ClassifierSerializeError;
        ClassifierUploadError; DatabaseError] →
   create_classifiers
       (failing_complete (Exn ValueError "invalid classifier data"))
       "training-ready" sample_classifiers sample_world
     = (Raise (Exn ValueError "invalid classifier data"), sample_world)).
Proof.
  apply (create_classifiers_complete_raises_other
           (failing_complete (Exn ValueError "invalid classifier data"))
           sample_world sample_world "training-ready" ready_training_workflow
           sample_classifiers (Exn ValueError "invalid classifier data"));
    reflexivity.
Defined.

(** ** Everything [get_training_task_params] can do *)

Lemma options_selected_all_cases s example :
  options_selected_all example s
    = (Ok (TrainingExample.options_selected example), s) ∨
  (∃ e, faults s (DbSelect "CriterionOption") = Some e ∧
     options_selected_all example s = (Raise e, s)).
Proof.
  unfold options_selected_all.
  destruct (io_cases (DbSelect "CriterionOption") s)
    as [ [_ Hdb] | (e & Hdb & Hio) ].
  - left. rewrite (run_bind_ok _ _ _ _ _ Hdb). reflexivity.
  - right. exists e. split; [ exact Hdb | by apply run_bind_raise ].
Qed.

Lemma returned_example_raises s example e :
  options_selected_all example s = (Raise e, s) →
  returned_example example s = (Raise e, s).
Proof. intros Hopt. unfold returned_example. by apply run_bind_raise. Qed.

(** When the options cannot be read, the loop stops at its first example. *)
Lemma mapM_returned_example_raises s first rest e :
  options_selected_all first s = (Raise e, s) →
  mapM returned_example (first :: rest) s = (Raise e, s).
Proof.
  intros Hfail. cbn [mapM].
  apply run_bind_raise. by apply returned_example_raises.
Qed.

Lemma mapM_returned_example_cases s examples :
  (∃ returned, mapM returned_example examples s = (Ok returned, s)) ∨
  (∃ e, faults s (DbSelect "CriterionOption") = Some e ∧
     mapM returned_example examples s = (Raise e, s)).
Proof.
  destruct (faults s (DbSelect "CriterionOption")) as [ e | ] eqn:Hfault.
  - destruct examples as [ | first rest ].
    + left. by exists [].
    + right. exists e. split; [ reflexivity | ].
      apply mapM_returned_example_raises.
      destruct (options_selected_all_cases s first)
        as [ Hok | (e' & Hfault' & Hraise) ].
      * unfold options_selected_all, io in Hok. rewrite run_bind in Hok.
        rewrite Hfault in Hok. discriminate Hok.
      * rewrite Hfault in Hfault'. injection Hfault' as <-. exact Hraise.
  - left.
    destruct (mapM_returned_example_ok s examples) as (returned & Hret & _).
    { intros example.
      destruct (options_selected_all_cases s example)
        as [ Hok | (e & Hfault' & _) ]; [ exact Hok | ].
      rewrite Hfault in Hfault'. discriminate Hfault'. }
    by exists returned.
Qed.

(** The body of the [try] of [get_training_task_params]. *)
Lemma get_training_task_params_handles s uuid (out : result pyval * world) :
  (∀ body : M pyval,
     body = (workflow ← AITrainingWorkflow_objects_get uuid;
             examples ← training_examples_all workflow;
             returned_examples ← mapM returned_example examples;
             mret (PDict (<["training_examples" := PList returned_examples]>
                          (<["algorithm_id" :=
                              PStr (AITrainingWorkflow.algorithm_id workflow)]>
                           ∅)))) →
     try_except body
       [ ([AITrainingWorkflow_DoesNotExist], λ _,
            let msg := "Could not retrieve AI training workflow with UUID "
                       +:+ uuid in
            raise AITrainingRequestError msg);
         ([DatabaseError], λ _,
            let msg := "An unexpected error occurred while retrieving "
                       +:+ "training examples for the AI training workflow with UUID "
                       +:+ uuid in
            logger_exception msg;;
            raise AITrainingInternalError msg) ] s = out) →
  get_training_task_params uuid s = out.
Proof. intros Hbody. unfold get_training_task_params. by apply Hbody. Qed.

Lemma get_training_task_params_body_cases s uuid :
  let body : M pyval :=
    workflow ← AITrainingWorkflow_objects_get uuid;
    examples ← training_examples_all workflow;
    returned_examples ← mapM returned_example examples;
    mret (PDict (<["training_examples" := PList returned_examples]>
                 (<["algorithm_id" :=
                     PStr (AITrainingWorkflow.algorithm_id workflow)]> ∅))) in
  (∃ v, body s = (Ok v, s)) ∨
  (∃ msg, body s = (Raise (Exn AITrainingWorkflow_DoesNotExist msg), s)) ∨
  (∃ e, (faults s (DbSelect "AITrainingWorkflow") = Some e ∨
         faults s (DbSelect "TrainingExample") = Some e ∨
         faults s (DbSelect "CriterionOption") = Some e) ∧
     body s = (Raise e, s)).
Proof.
  intros body. subst body.
  destruct (AITrainingWorkflow_objects_get_cases s uuid)
    as [ (workflow & _ & Hget) | [ (m & Hget) | (e & Hfault & Hget) ] ].
  - rewrite (run_bind_ok _ _ _ _ _ Hget).
    destruct (training_examples_all_cases s workflow)
      as [ Hex | (e & Hfault & Hex) ].
    + rewrite (run_bind_ok _ _ _ _ _ Hex).
      destruct (mapM_returned_example_cases s
                  (AITrainingWorkflow.training_examples workflow))
        as [ (returned & Hmap) | (e & Hfault & Hmap) ].
      * left. rewrite (run_bind_ok _ _ _ _ _ Hmap). eexists. reflexivity.
      * right. right. exists e. split; [ by right; right | ].
        by apply run_bind_raise.
    + right. right. exists e. split; [ by right; left | ].
      by apply run_bind_raise.
  - right. left. exists m. by apply run_bind_raise.
  - right. right. exists e. split; [ by left | ]. by apply run_bind_raise.
Qed.

Lemma get_training_task_params_cases s uuid :
  (∃ v, get_training_task_params uuid s = (Ok v, s)) ∨
  (∃ msg, get_training_task_params uuid s
            = (Raise (Exn AITrainingRequestError msg), s)) ∨
  (∃ msg, get_training_task_params uuid s
            = (Raise (Exn AITrainingInternalError msg), logged s ERROR msg)) ∨
  (∃ e, get_training_task_params uuid s = (Raise e, s) ∧
     (faults s (DbSelect "AITrainingWorkflow") = Some e ∨
      faults s (DbSelect "TrainingExample") = Some e ∨
      faults s (DbSelect "CriterionOption") = Some e) ∧
     exn_class e ∉ [AITrainingWorkflow_DoesNotExist; DatabaseError]).
Proof.
  destruct (get_training_task_params_body_cases s uuid)
    as [ (v & Hbody) | [ (m & Hbody) | (e & Hfault & Hbody) ] ].
  - left. exists v. apply get_training_task_params_handles.
    intros body ->. by apply try_except_ok.
  - right. left. eexists. apply get_training_task_params_handles.
    intros body ->. rewrite (try_except_class _ _ _ _ _ _ Hbody). reflexivity.
  - destruct e as [c msg].
    destruct (decide (c = AITrainingWorkflow_DoesNotExist)) as [-> | Hne1].
    { right. left. eexists. apply get_training_task_params_handles.
      intros body ->. rewrite (try_except_class _ _ _ _ _ _ Hbody).
      reflexivity. }
    destruct (decide (c = DatabaseError)) as [-> | Hne2].
    { right. right. left. eexists. apply get_training_task_params_handles.
      intros body ->. rewrite (try_except_class _ _ _ _ _ _ Hbody).
      reflexivity. }
    right. right. right. exists (Exn c msg). split; [ | split ].
    + apply get_training_task_params_handles.
      intros body ->. rewrite (try_except_class _ _ _ _ _ _ Hbody).
      destruct c; try reflexivity; congruence.
    + exact Hfault.
    + cbn. intros Hin.
      apply elem_of_cons in Hin as [ -> | Hin ]; [ done | ].
      apply elem_of_cons in Hin as [ -> | Hin ]; [ done | ].
      by apply elem_of_nil in Hin.
Qed.



(** X11: for a workflow without training examples the options are never
    queried: [get_training_task_params] returns an empty list of examples
    and the algorithm id, with the world unchanged, whether or not the
    options can be read. *)
Theorem get_training_task_params_no_examples s uuid workflow :
  AITrainingWorkflow_objects_get uuid s = (Ok workflow, s) →
  training_examples_all workflow s = (Ok [], s) →
  get_training_task_params uuid s
    = (Ok (PDict (<["training_examples" := PList []]>
                  (<["algorithm_id" :=
                      PStr (AITrainingWorkflow.algorithm_id workflow)]> ∅))),
       s).
Proof.
  intros Hget Hex.
  apply get_training_task_params_handles. intros body ->.
  apply try_except_ok.
  rewrite (run_bind_ok _ _ _ _ _ Hget).
  rewrite (run_bind_ok _ _ _ _ _ Hex). reflexivity.
Qed.

Lemma get_training_task_params_no_examples_witness :
  get_training_task_params "training-empty" options_offline_world
    = (Ok (PDict (<["training_examples" := PList []]>
                  (<["algorithm_id" := PStr "ease"]> ∅))),
       options_offline_world).
Proof.
  apply (get_training_task_params_no_examples options_offline_world
           "training-empty"
           (AITrainingWorkflow.Build [] "ease" {["vocabulary"; "grammar"]}
              None false));
    reflexivity.
Defined.

(** X12: whatever the uuid and whatever the database does,
    [get_training_task_params] writes no row: it leaves the world as it was,
    or it adds exactly one ERROR record to the log and raises
    [AITrainingInternalError] with the text of that record. *)
Theorem get_training_task_params_logs_only_its_error s uuid :
  logs_only_its_error AITrainingInternalError s
    (get_training_task_params uuid s).
Proof.
  unfold logs_only_its_error.
  destruct (get_training_task_params_cases s uuid)
    as [ (v & ->) | [ (msg & ->) | [ (msg & ->) | (e & -> & _) ] ] ];
    [ by left | by left | right; by exists msg | by left ].
Qed.

(** X13: when failing queries raise [DatabaseError],
    [get_training_task_params] has one of the outcomes that its docstring
    announces: it returns a value, or raises [AITrainingRequestError], both
    without touching the world, or logs and raises
    [AITrainingInternalError].  No [DoesNotExist] and no [DatabaseError] gets
    out. *)
Theorem get_training_task_params_documented_outcome s uuid :
  queries_raise_DatabaseError s →
  documented_outcome AITrainingRequestError AITrainingInternalError s
    (get_training_task_params uuid s).
Proof.
  intros Hdb. unfold documented_outcome.
  destruct (get_training_task_params_cases s uuid)
    as [ (v & ->) | [ (msg & ->) | [ (msg & ->) | (e & _ & Hfault & Hclass) ] ] ];
    [ left; by exists v | right; left; by exists msg
    | right; right; by exists msg | exfalso ].
  apply Hclass.
  assert (exn_class e = DatabaseError) as ->.
  { destruct Hfault as [ Hfault | [ Hfault | Hfault ] ];
      exact (Hdb _ _ Hfault). }
  apply elem_of_cons. right. apply list_elem_of_singleton. reflexivity.
Qed.

Lemma get_training_task_params_documented_outcome_witness :
  documented_outcome AITrainingRequestError AITrainingInternalError
    offline_world (get_training_task_params "training-ready" offline_world).
Proof.
  apply (get_training_task_params_documented_outcome offline_world
           "training-ready").
  intros table e Hfault. injection Hfault as <-. reflexivity.
Defined.

(** ** The helper of the student-training tests *)

Section assert_path_and_context_properties.

Context {V : Type} `{EqDecision V}.

Lemma assert_entries_None (context : gmap string V) (expected : list (string * V)) :
  assert_entries context expected = None ↔
  ∀ key value, (key, value) ∈ expected → context !! key = Some value.
Proof.
  induction expected as [ | [k v] rest IH ]; cbn.
  - split; [ | done ]. intros _ key value Hin.
    by apply elem_of_nil in Hin.
  - destruct (context !! k) as [ found | ] eqn:Hk.
    + destruct (bool_decide_reflect (found = v)) as [ -> | Hne ].
      * rewrite IH. split.
        -- intros Hrest key value Hin.
           apply elem_of_cons in Hin as [ [= -> ->] | Hin ];
             [ exact Hk | by apply Hrest ].
        -- intros Hall key value Hin. apply Hall.
           by apply list_elem_of_further.
      * split; [ intros Hno; discriminate Hno | ].
        intros Hall. specialize (Hall k v (list_elem_of_here _ _)).
        rewrite Hk in Hall. injection Hall as Heq. contradiction.
    + split; [ intros Hno; discriminate Hno | ].
      intros Hall. specialize (Hall k v (list_elem_of_here _ _)).
      rewrite Hk in Hall. discriminate Hall.
Qed.

(** X14: [_assert_path_and_context] passes exactly when the path is the
    expected path, the context is the expected context, entry for entry
    with no entry more, and the rendered response is not empty: comparing
    the lengths and then the entries of the expected context amounts to
    comparing the two dicts. *)
Theorem assert_path_and_context_passes
    (path : string) (context : gmap string V) (resp : string)
    (expected_path : string) (expected_context : gmap string V) :
  _assert_path_and_context path context resp expected_path expected_context
    = None ↔
  path = expected_path ∧ context = expected_context ∧ resp ≠ "".
Proof.
  unfold _assert_path_and_context.
  destruct (bool_decide_reflect (path = expected_path)) as [ Hpath | Hpath ];
    cbn [negb]; [ | split; [ intros Hno; discriminate Hno | tauto ] ].
  destruct (bool_decide_reflect (size context = size expected_context))
    as [ Hsize | Hsize ]; cbn [negb];
    [ | split; [ intros Hno; discriminate Hno | ];
        intros (_ & -> & _); contradiction ].
  assert (0 < String.length resp ↔ resp ≠ "") as Hresp.
  { destruct resp; cbn; split; [ lia | done | done | lia ]. }
  destruct (assert_entries context (map_to_list expected_context))
    as [ err | ] eqn:Hentries.
  - split; [ intros Hno; discriminate Hno | ].
    intros (_ & -> & _).
    assert (assert_entries expected_context (map_to_list expected_context)
              = None) as Hnone; [ | congruence ].
    apply assert_entries_None. intros key value Hin.
    by apply elem_of_map_to_list.
  - assert (context = expected_context) as Hsame.
    { symmetry. apply map_subseteq_size_eq; [ | lia ].
      apply map_subseteq_spec. intros key value Hkey.
      apply (proj1 (assert_entries_None _ _) Hentries).
      by apply elem_of_map_to_list. }
    destruct (bool_decide_reflect (0 < String.length resp)) as [ Hlen | Hlen ].
    + split; [ intros _ | done ]. repeat split; [ done | done | by apply Hresp ].
    + split; [ intros Hno; discriminate Hno | ].
      intros (_ & _ & Hne). exfalso. apply Hlen. by apply Hresp.
Qed.

(** X15: what a failing comparison of the contexts raises.  When the path is
    the expected one and the two contexts have the same number of entries
    but differ, [_assert_path_and_context] fails before rendering, with
    [KeyError] for a key that the context lacks or with [AssertionError]. *)
Theorem assert_path_and_context_fails
    (path : string) (context : gmap string V) (resp : string)
    (expected_context : gmap string V) :
  size context = size expected_context →
  context ≠ expected_context →
  _assert_path_and_context path context resp path expected_context
    = Some AssertionError ∨
  ∃ key, context !! key = None ∧ is_Some (expected_context !! key) ∧
    _assert_path_and_context path context resp path expected_context
      = Some (KeyError key).
Proof.
  intros Hsize Hdiff. unfold _assert_path_and_context.
  rewrite bool_decide_eq_true_2 by reflexivity.
  rewrite bool_decide_eq_true_2 by exact Hsize. cbn [negb].
  assert (∀ l, (∀ key value, (key, value) ∈ l →
                  expected_context !! key = Some value) →
    assert_entries context l = None ∨
    assert_entries context l = Some AssertionError ∨
    ∃ key, context !! key = None ∧ is_Some (expected_context !! key) ∧
      assert_entries context l = Some (KeyError key)) as Hloop.
  { induction l as [ | [k v] rest IH ]; intros Hl; cbn; [ by left | ].
    destruct (context !! k) as [ found | ] eqn:Hk.
    - destruct (bool_decide (found = v)); [ | by right; left ].
      apply IH. intros key value Hin. apply Hl. by apply list_elem_of_further.
    - right. right. exists k. split; [ exact Hk | ].
      split; [ | reflexivity ]. exists v. apply Hl. apply list_elem_of_here. }
  destruct (Hloop (map_to_list expected_context))
    as [ Hnone | [ Hassert | (key & Hkey & Hexp & Hraise) ] ].
  - intros key value Hin. by apply elem_of_map_to_list.
  - exfalso. apply Hdiff. symmetry.
    apply map_subseteq_size_eq; [ | lia ].
    apply map_subseteq_spec. intros key value Hkey.
    apply (proj1 (assert_entries_None _ _) Hnone).
    by apply elem_of_map_to_list.
  - left. by rewrite Hassert.
  - right. exists key. split; [ exact Hkey | ]. split; [ exact Hexp | ].
    by rewrite Hraise.
Qed.

End assert_path_and_context_properties.

Lemma assert_path_and_context_fails_witness :
  _assert_path_and_context "student_training.html" rendered_context "<div/>"
      "student_training.html" expected_context
    = Some AssertionError ∨
  ∃ key,
    rendered_context !! key = None ∧
    is_Some (expected_context !! key) ∧
    _assert_path_and_context "student_training.html" rendered_context "<div/>"
        "student_training.html" expected_context
      = Some (KeyError key).
Proof.
  apply (assert_path_and_context_fails "student_training.html"
           rendered_context "<div/>" expected_context).
  - vm_compute. reflexivity.
  - intros Heq.
    assert (rendered_context !! "training_due" = Some 7) as Hdue
      by (vm_compute; reflexivity).
    rewrite Heq in Hdue. vm_compute in Hdue. discriminate Hdue.
Defined.
